(** * web3protocol: a shallow embedding of the web3:// client

    The development follows the two Go source files of the package
    [web3protocol]: the name-service side ([ens.go]: [Normalize],
    [LabelHash], [NameHash], [resolve], [parseChainSpecificAddress], ...)
    and the client side ([FetchContractReturn], [ProcessContractReturn],
    [checkResolveMode], [parseOutput]).

    Go strings and byte slices are byte sequences: a Go [string] is a Rocq
    [string] (a list of 8-bit characters) and a [[]byte] is a [list byte];
    a nil slice and an empty slice are both [[]], except in the field
    [Output] of [FetchedWeb3URL], where nil is told apart.  Everything the package
    takes from other packages (keccak-256, the ABI codec, the IDNA profile,
    the RPC transport) is a field of a capability record. *)

From Stdlib Require Import ZArith NArith Ascii String List Lia.
From Stdlib.Strings Require Import Byte.
From Stdlib Require Import DecimalString.
From stdpp Require Import base option list gmap strings.

Local Open Scope string_scope.
Local Open Scope list_scope.

(** ** Bytes and hexadecimal text *)

Definition bytes := list byte.

Definition zero_byte : byte := x00.

#[global] Instance byte_eq_decision : EqDecision byte := Byte.byte_eq_dec.

(** [[]byte(s)] and [string(bs)]. *)
Definition bytes_of_string (s : string) : bytes := String.list_byte_of_string s.
Definition string_of_bytes (bs : bytes) : string := String.string_of_list_byte bs.

(** One lower-case hexadecimal digit, as [encoding/hex] prints it. *)
Definition hexdigit (n : N) : ascii :=
  match n with
  | 0%N => "0" | 1%N => "1" | 2%N => "2" | 3%N => "3"
  | 4%N => "4" | 5%N => "5" | 6%N => "6" | 7%N => "7"
  | 8%N => "8" | 9%N => "9" | 10%N => "a" | 11%N => "b"
  | 12%N => "c" | 13%N => "d" | 14%N => "e" | _ => "f"
  end%char.

Definition hex_of_byte (b : byte) : string :=
  let n := Byte.to_N b in
  String (hexdigit (N.div n 16)) (String (hexdigit (N.modulo n 16)) EmptyString).

(** [common.Bytes2Hex]: two digits per byte, no prefix. *)
Fixpoint Bytes2Hex (bs : bytes) : string :=
  match bs with
  | [] => EmptyString
  | b :: rest => hex_of_byte b +:+ Bytes2Hex rest
  end.

(** The inverse reading of a digit and of a pair of digits, used to show
    that [Bytes2Hex] loses nothing. *)
Definition unhexdigit (c : ascii) : option N :=
  let n := N_of_ascii c in
  if (48 <=? n)%N && (n <=? 57)%N then Some (n - 48)%N
  else if (97 <=? n)%N && (n <=? 102)%N then Some (n - 87)%N
  else None.

Definition byte_of_hex (s : string) : option byte :=
  match s with
  | String h (String l EmptyString) =>
      match unhexdigit h, unhexdigit l with
      | Some a, Some b => Byte.of_N (16 * a + b)
      | _, _ => None
      end
  | _ => None
  end.

(** ** The functions of Go's [strings] package that the code uses *)

(** [strings.Repeat] of a one-character string. *)
Fixpoint Repeat (c : ascii) (n : nat) : string :=
  match n with
  | O => EmptyString
  | S k => String c (Repeat c k)
  end.

(** [strings.HasPrefix(s, prefix)]. *)
Definition HasPrefix (s prefix : string) : bool := String.prefix prefix s.

(** [strings.Split(s, sep)] for a separator of one character: the pieces
    between the separators, in order; a string without the separator (the
    empty one too) is a single piece. *)
Fixpoint Split (s : string) (sep : ascii) : list string :=
  match s with
  | EmptyString => [EmptyString]
  | String c rest =>
      if Ascii.eqb c sep then EmptyString :: Split rest sep
      else match Split rest sep with
           | [] => [String c EmptyString]
           | p :: ps => String c p :: ps
           end
  end.

(** The last element of a slice, [ss[len(ss)-1]]. *)
Definition last_part (ss : list string) : string := List.last ss EmptyString.

(** [strings.Trim(s, cutset)]: drop the leading and trailing characters
    that occur in [cutset]. *)
Fixpoint in_cutset (c : ascii) (cutset : string) : bool :=
  match cutset with
  | EmptyString => false
  | String d rest => Ascii.eqb c d || in_cutset c rest
  end.

Fixpoint TrimLeft (s cutset : string) : string :=
  match s with
  | EmptyString => EmptyString
  | String c rest => if in_cutset c cutset then TrimLeft rest cutset else s
  end.

Fixpoint TrimRight (s cutset : string) : string :=
  match s with
  | EmptyString => EmptyString
  | String c rest =>
      match TrimRight rest cutset with
      | EmptyString => if in_cutset c cutset then EmptyString else String c EmptyString
      | r => String c r
      end
  end.

Definition Trim (s cutset : string) : string := TrimRight (TrimLeft s cutset) cutset.

(** [common.RightPadBytes(slice, l)]. *)
Definition RightPadBytes (slice : bytes) (l : nat) : bytes :=
  if (l <=? length slice)%nat then slice
  else slice ++ repeat zero_byte (l - length slice).

(** ** Errors

    A Go [error] is either the package's own [Web3Error] or an error value of
    another package ([errors.New], the ABI codec, the IDNA profile); the nil
    error is [None] of [option error]. *)

(** Modelled from the spec: the declaration of [Web3Error] is not in the
    two files; it is "the uniform failure record carrying HTTP status and a
    message", built positionally as [Web3Error{code, message}] and read as
    [err.HttpCode] in [respondWithErrorPage]. *)
Record Web3Error := mkWeb3Error { HttpCode : Z; Message : string }.

Inductive error :=
| ErrWeb3 (e : Web3Error)
| ErrOther (msg : string).

(** [errors.New]. *)
Definition errors_New (msg : string) : error := ErrOther msg.

(** The result of a call whose value is not looked at when it fails. *)
Inductive result (A : Type) : Type :=
| Ok (a : A)
| Err (e : error).
Arguments Ok {A} a.
Arguments Err {A} e.

(** [net/http] status codes. *)
Definition StatusBadRequest : Z := 400.
Definition StatusNotFound : Z := 404.
Definition StatusInternalServerError : Z := 500.

(** ** Addresses, hashes and call messages *)

(** [common.Address] is [[20]byte]; [common.Address{}] is the zero address. *)
Definition Address := bytes.
Definition zero_address : Address := repeat zero_byte 20.

(** A [[32]byte] hash value; its zero value. *)
Definition zero_hash : bytes := repeat zero_byte 32.

(** [common.BytesToHash(b)]: the last 32 bytes of [b], padded on the left. *)
Definition BytesToHash (b : bytes) : bytes :=
  let b' := skipn (length b - 32) b in
  repeat zero_byte (32 - length b') ++ b'.

(** [common.BytesToHash(b).Hex()]. *)
Definition HashHex (b : bytes) : string := "0x" +:+ Bytes2Hex (BytesToHash b).

(** [ethereum.CallMsg]; the nil pointers of the big-integer fields are [None]. *)
Record CallMsg := mkCallMsg {
  From : Address;
  To : option Address;
  Gas : Z;
  GasPrice : option Z;
  GasFeeCap : option Z;
  GasTipCap : option Z;
  Data : bytes;
  Value : option Z
}.

(** ** Effects: the calls a function makes on the RPC transport

    A computation yields the events it caused, in order, and either a
    value or a run-time panic. *)

Inductive Event :=
| EvDial (rpc : string)
| EvCall (rpc : string) (msg : CallMsg)
| EvClose (rpc : string).

Inductive outcome (A : Type) : Type :=
| Returns (a : A)
| Panics (reason : string).
Arguments Returns {A} a.
Arguments Panics {A} reason.

Record Eff (A : Type) : Type := mkEff { trace : list Event; out : outcome A }.
Arguments mkEff {A} trace out.
Arguments trace {A} e.
Arguments out {A} e.

#[global] Instance Eff_ret : MRet Eff := fun A a => mkEff [] (Returns a).

#[global] Instance Eff_bind : MBind Eff := fun A B f m =>
  match out m with
  | Returns a => mkEff (trace m ++ trace (f a)) (out (f a))
  | Panics r => mkEff (trace m) (Panics r)
  end.

Definition panic {A : Type} (reason : string) : Eff A := mkEff [] (Panics reason).

Definition emit (e : Event) : Eff unit := mkEff [e] (Returns tt).

(** [defer f()]: the deferred call runs when the body is left, by a return
    or by a panic. *)
Definition defer {A : Type} (e : Event) (body : Eff A) : Eff A :=
  mkEff (trace body ++ [e]) (out body).

Definition nil_dereference : string := "invalid memory address or nil pointer dereference".
Definition index_out_of_range : string := "index out of range".
Definition bad_type_assertion : string := "interface conversion".

(** Does the computation reach the contract at all? *)
Definition is_call (e : Event) : bool :=
  match e with EvCall _ _ => true | _ => false end.

Definition calls {A : Type} (m : Eff A) : list Event := List.filter is_call (trace m).

(** ** Capabilities taken from other packages *)

(** [golang.org/x/net/idna]: the profile [p] of [ens.go],
    [idna.New(MapForLookup(), StrictDomainName(false), Transitional(false))],
    with its method [ToUnicode], which returns a string together with the
    error. *)
Class Normalizer := {
  ToUnicode : string -> string * option error
}.

(** [sha3.NewLegacyKeccak256] and [crypto.Keccak256Hash]: the 32-byte digest
    of the bytes written (writing to the hash never fails). *)
Class Hasher := {
  Keccak256 : bytes -> bytes
}.

(** [go-ethereum/common] on address text, and [strings.ToLower]. *)
Class Common := {
  IsHexAddress : string -> bool;
  HexToAddress : string -> Address;
  BytesToAddress : bytes -> Address;
  ToLower : string -> string
}.

(** [ethclient]: a client is named by the endpoint it was dialled with.
    [Dial] yields the error, if any; [CallContract] yields the returned
    bytes together with the error. *)
Class EthCaller := {
  Dial : string -> option string;
  CallContract : string -> CallMsg -> bytes * option string
}.

(** [accounts/abi] and [encoding/json].  [GoValue] stands for the
    [interface{}] values the codec produces; [as_bytes] and [as_string] are
    the type assertions [v.([]byte)] and [v.(string)]; [zero_AbiType] is the
    zero value [abi.Type{}]. *)
Class AbiCodec := {
  AbiType : Type;
  GoValue : Type;
  zero_AbiType : AbiType;
  type_String : AbiType -> string;
  NewType : string -> result AbiType;
  Pack : list AbiType -> list GoValue -> result bytes;
  UnpackValues : list AbiType -> bytes -> result (list GoValue);
  as_bytes : GoValue -> option bytes;
  as_string : GoValue -> option string;
  of_string : string -> GoValue;
  Marshal_strings : list string -> result bytes;
  Marshal_values : list GoValue -> result bytes
}.

(** ** Configuration *)

(** Modelled from the spec: the kinds of name service, "kind: {ens, w3ns,
    simple}"; [ens.go] names two of them, [SimpleNameService] and
    [Web3QNameService], and their declaration is not in the two files. *)
Inductive NameServiceType :=
| SimpleNameService
| Web3QNameService
| EthereumNameService.

#[global] Instance NameServiceType_eq_dec : EqDecision NameServiceType.
Proof. solve_decision. Defined.

(** Modelled from the spec: [NameServiceInfo], [ChainConfig] and [Config]
    are declared outside the two files; the fields are the ones the code
    reads.  The type [K] of chain identifiers is [string] in [ens.go] and
    [int] in the client file. *)
Record NameServiceInfo := mkNameServiceInfo {
  NSType : NameServiceType;
  NSAddr : string
}.

Record ChainConfig := mkChainConfig {
  RPC : string;
  NSConfig : gmap string NameServiceInfo
}.

Record Config (K : Type) `{Countable K} := mkConfig {
  ChainConfigs : gmap K ChainConfig;
  Name2Chain : gmap string K
}.
Arguments mkConfig {K _ _} ChainConfigs Name2Chain.
Arguments ChainConfigs {K _ _} c.
Arguments Name2Chain {K _ _} c.

(** The zero value a Go map yields for a key it does not hold. *)
Definition zero_ChainConfig : ChainConfig := mkChainConfig EmptyString ∅.

(** Functions of the package that live outside the two files.
    [parseArguments chain address args] builds the call message for a
    method name and its typed arguments and may fail; [handleCallContract]
    performs a call and yields bytes or an error; [toJSON] converts a
    decoded value to its JSON-friendly form. *)
Class Helpers (K : Type) `{AbiCodec} := {
  parseArguments : K -> Address -> list string -> CallMsg * option error;
  handleCallContract : string -> CallMsg -> Eff (bytes * option error);
  toJSON : AbiType -> GoValue -> GoValue * option error
}.

(** The method [Error()] of an error value.  For a [Web3Error] the method
    is declared outside the two files; it is taken to yield the message. *)
Definition Error (e : error) : string :=
  match e with
  | ErrWeb3 w => Message w
  | ErrOther msg => msg
  end.

(** ** [parseOutput] (client file) *)

Section ParseOutput.
Context {K : Type} {codec : AbiCodec} {helpers : Helpers K}.

(** [for _, arg := range returnArgs { ty, err := abi.NewType(arg, "", nil) ... }] *)
Fixpoint newTypes (returnArgs : list string) : result (list AbiType) :=
  match returnArgs with
  | [] => Ok []
  | arg :: rest =>
      match NewType arg with
      | Err err => Err (ErrWeb3 (mkWeb3Error StatusBadRequest (Error err)))
      | Ok ty =>
          match newTypes rest with
          | Err e => Err e
          | Ok tys => Ok (ty :: tys)
          end
      end
  end.

(** [for i, arg := range argsArray { res[i], _ = toJSON(arg.Type, res[i]) }] *)
Fixpoint toJSON_each (argsArray : list AbiType) (i : nat) (res : list GoValue)
  : outcome (list GoValue) :=
  match argsArray with
  | [] => Returns res
  | ty :: rest =>
      match res !! i with
      | None => Panics index_out_of_range
      | Some v => toJSON_each rest (S i) (<[i := fst (toJSON ty v)]> res)
      end
  end.

Definition parseOutput (output : bytes) (userTypes : string)
  : outcome (result (list GoValue)) :=
  if String.eqb userTypes "()" then
    Returns (Ok [of_string ("0x" +:+ Bytes2Hex output)])
  else
    let returnTypes := if String.eqb userTypes "" then "(bytes)" else userTypes in
    let returnArgs := Split (Trim returnTypes "()") "," in
    match newTypes returnArgs with
    | Err e => Returns (Err e)
    | Ok argsArray =>
        match UnpackValues argsArray output with
        | Err err => Returns (Err (ErrWeb3 (mkWeb3Error StatusBadRequest (Error err))))
        | Ok res =>
            if String.eqb userTypes "" then Returns (Ok res)
            else match toJSON_each argsArray 0 res with
                 | Panics r => Panics r
                 | Returns res' => Returns (Ok res')
                 end
        end
    end.

End ParseOutput.

(** ** The name-service side: [ens.go] *)

Module Ens.

(** [EmptyString] and [EmptyAddress] of [ens.go]; the first is renamed, the
    name being the one of the empty Rocq string. *)
Definition EmptyStringABI : string := Repeat "0" 62 +:+ "20" +:+ Repeat "0" 64.
Definition EmptyAddress : string := Repeat "0" 64.

Section Hashing.
Context {normalizer : Normalizer} {hasher : Hasher}.

Definition Normalize (input : string) : string * option error :=
  let '(output, err) := ToUnicode input in
  match err with
  | Some e => (output, Some e)
  | None =>
      if HasPrefix input "." && negb (HasPrefix output ".")
      then ("." +:+ output, None)
      else (output, None)
  end.

Definition LabelHash (label : string) : bytes * option error :=
  let '(normalizedLabel, err) := Normalize label in
  match err with
  | Some e => (zero_hash, Some e)
  | None => (Keccak256 (bytes_of_string normalizedLabel), None)
  end.

Definition nameHashPart (currentHash : bytes) (name : string) : bytes * option error :=
  let nameHash := Keccak256 (bytes_of_string name) in
  (Keccak256 (currentHash ++ nameHash), None).

(** The loop [for i := len(parts) - 1; i >= 0; i--] of [NameHash], run over
    the parts in the order the loop visits them. *)
Fixpoint nameHashLoop (visited : list string) (hash : bytes) : bytes * option error :=
  match visited with
  | [] => (hash, None)
  | part :: rest =>
      let '(hash', err) := nameHashPart hash part in
      match err with
      | Some e => (hash', Some e)
      | None => nameHashLoop rest hash'
      end
  end.

Definition NameHash (name : string) : bytes * option error :=
  if String.eqb name "" then (zero_hash, None)
  else
    let '(normalizedName, err) := Normalize name in
    match err with
    | Some e => (zero_hash, Some e)
    | None =>
        let parts := Split normalizedName "." in
        nameHashLoop (rev parts) zero_hash
    end.

End Hashing.

Section Resolution.
Context {normalizer : Normalizer} {hasher : Hasher} {common : Common}
        {caller : EthCaller} {codec : AbiCodec} {helpers : Helpers string}.

Definition getConfigs (cfg : Config string) (nameServiceChain nameWithSuffix : string)
  : NameServiceInfo * string * option error :=
  let zero := mkNameServiceInfo SimpleNameService "" in
  let ss := Split nameWithSuffix "." in
  if (length ss <=? 1)%nat then
    (zero, "", Some (ErrWeb3 (mkWeb3Error StatusBadRequest ("invalid domain name: " +:+ nameWithSuffix))))
  else
    let suffix := last_part ss in
    match ChainConfigs cfg !! nameServiceChain with
    | None =>
        (zero, "", Some (ErrWeb3 (mkWeb3Error StatusBadRequest ("unsupported chain: " +:+ nameServiceChain))))
    | Some chainInfo =>
        match NSConfig chainInfo !! suffix with
        | None =>
            (zero, "", Some (ErrWeb3 (mkWeb3Error StatusBadRequest ("unsupported suffix: " +:+ suffix))))
        | Some nsInfo => (nsInfo, RPC chainInfo, None)
        end
    end.

(** [parseChainSpecificAddress]: the address, the chain it is on (the empty
    string when the text names no chain) and the error. *)
Definition parseChainSpecificAddress (cfg : Config string) (addr : string)
  : Address * string * option error :=
  if IsHexAddress addr then (HexToAddress addr, "", None)
  else
    let ss := Split addr ":" in
    if negb (length ss =? 2)%nat then
      (zero_address, "", Some (ErrWeb3 (mkWeb3Error StatusBadRequest
         ("invalid contract address from name service: " +:+ addr))))
    else
      let chainName := nth 0 ss "" in
      match Name2Chain cfg !! ToLower chainName with
      | None =>
          (zero_address, "", Some (ErrWeb3 (mkWeb3Error StatusBadRequest
             ("unsupported chain short name from name service: " +:+ addr))))
      | Some chainId =>
          if negb (IsHexAddress (nth 1 ss "")) then
            (zero_address, "", Some (ErrWeb3 (mkWeb3Error StatusBadRequest
               ("invalid contract address from name service: " +:+ addr))))
          else (HexToAddress (nth 1 ss ""), chainId, None)
      end.

(** [ethClient.CallContract(context.Background(), msg, nil)] on the client
    dialled at [rpc]. *)
Definition callContract (rpc : string) (msg : CallMsg) : Eff (bytes * option string) :=
  _ ← emit (EvCall rpc msg); mret (CallContract rpc msg).

(** [res[0].(string)] *)
Definition first_string (res : list GoValue) : outcome string :=
  match res !! 0%nat with
  | None => Panics index_out_of_range
  | Some v =>
      match as_string v with
      | None => Panics bad_type_assertion
      | Some s => Returns s
      end
  end.

Definition resolve (cfg : Config string) (ethClient : string)
    (nameServiceChain : string) (resolver : Address) (args : list string)
  : Eff (Address * string * option error) :=
  match parseArguments nameServiceChain resolver args with
  | (_, Some e) => mret (zero_address, "", Some e)
  | (msg, None) =>
      '(bs, err) ← callContract ethClient msg;
      if bool_decide (err ≠ None) || String.eqb (Bytes2Hex bs) EmptyAddress then
        (* [err.Error()] is evaluated also when [err] is nil *)
        match err with
        | Some e => mret (zero_address, "", Some (ErrWeb3 (mkWeb3Error StatusNotFound e)))
        | None => panic nil_dereference
        end
      else
        match parseOutput bs "address" with
        | Panics r => panic r
        | Returns (Err e) => mret (zero_address, "", Some e)
        | Returns (Ok res) =>
            match first_string res with
            | Panics r => panic r
            | Returns s => mret (parseChainSpecificAddress cfg s)
            end
        end
  end.

Definition getResolver (ethClient : string) (nsAddr : Address)
    (node nameServiceChain nameWithSuffix : string) : Eff (Address * option error) :=
  match parseArguments nameServiceChain nsAddr ["resolver"; "bytes32!" +:+ node] with
  | (_, Some e) => mret (zero_address, Some e)
  | (msg, None) =>
      '(bs, e) ← handleCallContract ethClient msg;
      match e with
      | Some e => mret (zero_address, Some e)
      | None =>
          if String.eqb (Bytes2Hex bs) EmptyAddress then
            mret (zero_address, Some (ErrWeb3 (mkWeb3Error StatusBadRequest
                    ("Cannot get resolver for " +:+ nameWithSuffix))))
          else mret (BytesToAddress bs, None)
      end
  end.

(** [nameWithSuffix[:len(nameWithSuffix)-4]]; a negative bound panics. *)
Definition strip_suffix4 (nameWithSuffix : string) : outcome string :=
  if (String.length nameWithSuffix <? 4)%nat then Panics "slice bounds out of range"
  else Returns (String.substring 0 (String.length nameWithSuffix - 4) nameWithSuffix).

Definition simpleLookup (cfg : Config string) (ethClient nameServiceChain : string)
    (nsInfo : NameServiceInfo) (nameWithSuffix : string)
  : Eff (Address * string * option error) :=
  match strip_suffix4 nameWithSuffix with
  | Panics r => panic r
  | Returns label =>
      let args := ["pointers"; "bytes32!" +:+ HashHex (RightPadBytes (bytes_of_string label) 32)] in
      resolve cfg ethClient nameServiceChain (HexToAddress (NSAddr nsInfo)) args
  end.

Definition getAddressFromNameService (cfg : Config string)
    (nameServiceChain nameWithSuffix : string) : Eff (Address * string * option error) :=
  if IsHexAddress nameWithSuffix then mret (HexToAddress nameWithSuffix, "", None)
  else
    match getConfigs cfg nameServiceChain nameWithSuffix with
    | (_, _, Some we) => mret (zero_address, "", Some we)
    | (nsInfo, rpc, None) =>
        _ ← emit (EvDial rpc);
        match Dial rpc with
        | Some _ =>
            mret (zero_address, "",
                  Some (ErrWeb3 (mkWeb3Error StatusInternalServerError "internal server error")))
        | None =>
            defer (EvClose rpc)
              (if bool_decide (NSType nsInfo ≠ SimpleNameService) then
                 let '(nameHash, _) := NameHash nameWithSuffix in
                 let node := HashHex nameHash in
                 '(resolver, e) ← getResolver rpc (HexToAddress (NSAddr nsInfo)) node
                                     nameServiceChain nameWithSuffix;
                 match e with
                 | Some e => mret (zero_address, "", Some e)
                 | None =>
                     resolve cfg rpc nameServiceChain resolver ["addr"; "bytes32!" +:+ node]
                 end
               else simpleLookup cfg rpc nameServiceChain nsInfo nameWithSuffix)
        end
    end.

(** The probe of [getAddressFromNameServiceWebHandler] between the resolver
    lookup and the [addr] fall-back. *)
Definition webHandlerProbe (cfg : Config string) (rpc nameServiceChain : string)
    (nsInfo : NameServiceInfo) (resolver : Address) (node : string)
  : Eff (Address * string * option error) :=
  let '(args, returnTp) :=
    if bool_decide (NSType nsInfo = Web3QNameService)
    then (["webHandler"; "bytes32!" +:+ node], "(address)")
    else (["text"; "bytes32!" +:+ node; "string!contentcontract"], "(string)") in
  let fallback := resolve cfg rpc nameServiceChain resolver ["addr"; "bytes32!" +:+ node] in
  match parseArguments nameServiceChain resolver args with
  | (_, Some e) => mret (zero_address, "", Some e)
  | (msg, None) =>
      '(bs, we) ← handleCallContract rpc msg;
      match we with
      | Some we => mret (zero_address, "", Some we)
      | None =>
          if negb (String.eqb (Bytes2Hex bs) EmptyStringABI) then
            match parseOutput bs returnTp with
            | Panics r => panic r
            | Returns (Ok res) =>
                match first_string res with
                | Panics r => panic r
                | Returns s => mret (parseChainSpecificAddress cfg s)
                end
            | Returns (Err _) => fallback
            end
          else fallback
      end
  end.

Definition getAddressFromNameServiceWebHandler (cfg : Config string)
    (nameServiceChain nameWithSuffix : string) : Eff (Address * string * option error) :=
  if IsHexAddress nameWithSuffix then mret (HexToAddress nameWithSuffix, "", None)
  else
    match getConfigs cfg nameServiceChain nameWithSuffix with
    | (_, _, Some we) => mret (zero_address, "", Some we)
    | (nsInfo, rpc, None) =>
        _ ← emit (EvDial rpc);
        match Dial rpc with
        | Some _ =>
            mret (zero_address, "",
                  Some (ErrWeb3 (mkWeb3Error StatusInternalServerError "internal server error")))
        | None =>
            defer (EvClose rpc)
              (if bool_decide (NSType nsInfo ≠ SimpleNameService) then
                 let '(nameHash, _) := NameHash nameWithSuffix in
                 let node := HashHex nameHash in
                 '(resolver, e) ← getResolver rpc (HexToAddress (NSAddr nsInfo)) node
                                     nameServiceChain nameWithSuffix;
                 match e with
                 | Some e => mret (zero_address, "", Some e)
                 | None => webHandlerProbe cfg rpc nameServiceChain nsInfo resolver node
                 end
               else simpleLookup cfg rpc nameServiceChain nsInfo nameWithSuffix)
        end
    end.

End Resolution.

End Ens.

(** ** The client side *)

Module Client.

(** The string constants of the client file. *)
Definition DomainNameServiceENS : string := "ens".
Definition DomainNameServiceW3NS : string := "w3ns".

Definition ContractCallModeCalldata : string := "calldata".
Definition ContractCallModeMethod : string := "method".

Definition ContractReturnProcessingABIEncodedBytes : string := "decodeABIEncodedBytes".
Definition ContractReturnProcessingRawBytesJsonEncoded : string := "jsonEncodeRawBytes".
Definition ContractReturnProcessingJsonEncodeValues : string := "jsonEncodeValues".
Definition ContractReturnProcessingErc5219 : string := "erc5219".

(** Modelled from the spec: the type [ResolveMode] and its three constants
    are declared outside the two files; "resolve_mode: one of {auto, manual,
    resource-request}". *)
Inductive ResolveMode :=
| ResolveModeAuto
| ResolveModeManual
| ResolveModeResourceRequests.

#[global] Instance ResolveMode_eq_dec : EqDecision ResolveMode.
Proof. solve_decision. Defined.

(** The 64 hexadecimal digits [checkResolveMode] compares with. *)
Definition manual_hex : string :=
  "6d616e75616c0000000000000000000000000000000000000000000000000000".
Definition erc5219_hex : string :=
  "3532313900000000000000000000000000000000000000000000000000000000".

(** The message of the 404 that [FetchContractReturn] gives for an empty
    return; the quotation mark and the line feed are written by their
    codes. *)
Definition dquote : string := String (ascii_of_nat 34) EmptyString.
Definition newline : string := String (ascii_of_nat 10) EmptyString.

Definition no_data_message : string :=
  "The contract returned no data (" +:+ dquote +:+ "0x" +:+ dquote +:+ ")."
  +:+ newline +:+ newline
  +:+ "This could be due to any of the following:" +:+ newline
  +:+ "  - The contract does not have the requested function," +:+ newline
  +:+ "  - The parameters passed to the contract function may be invalid, or" +:+ newline
  +:+ "  - The address is not a contract.".

Section Defs.
Context {hasher : Hasher} {common : Common} {caller : EthCaller}
        {codec : AbiCodec} {helpers : Helpers Z}.

Record Web3URL := mkWeb3URL {
  Url : string;
  HostDomainNameResolver : string;
  HostDomainNameResolverChainId : Z;
  ContractAddress : Address;
  ChainId : Z;
  ResolveMode_ : ResolveMode;
  ContractCallMode : string;
  Calldata : bytes;
  MethodName : string;
  MethodArgs : list AbiType;
  MethodArgValues : list GoValue;
  ContractReturnProcessing : string;
  DecodedABIEncodedBytesMimeType : string;
  JsonEncodedValueTypes : list AbiType
}.

(** [Output] is [None] for the nil slice, which one claim is about; the
    pointer [ParsedUrl] is [None] when nil. *)
Record FetchedWeb3URL := mkFetchedWeb3URL {
  ParsedUrl : option Web3URL;
  ContractReturn : bytes;
  Output : option bytes;
  HttpCode : Z;
  HttpHeaders : gmap string string
}.

(** The zero value of [FetchedWeb3URL] with the header map initialised. *)
Definition emptyFetched : FetchedWeb3URL :=
  mkFetchedWeb3URL None [] None 0 ∅.

(** [client.Config.ChainConfigs[id].RPC], the zero value for a missing key. *)
Definition rpcOf (cfg : Config Z) (id : Z) : string :=
  RPC (default zero_ChainConfig (ChainConfigs cfg !! id)).

Definition callContract (rpc : string) (msg : CallMsg) : Eff (bytes * option string) :=
  _ ← emit (EvCall rpc msg); mret (CallContract rpc msg).

(** The loop of [FetchContractReturn] that writes the argument types into
    the signature: [i] is the index, [n] is [len(web3Url.MethodArgs)]. *)
Fixpoint signatureLoop (args : list AbiType) (i n : nat) (methodSignature : string)
  : string :=
  match args with
  | [] => methodSignature
  | methodArg :: rest =>
      let s1 := methodSignature +:+ type_String methodArg in
      let s2 := if (i <? n - 1)%nat then s1 +:+ "," else s1 in
      signatureLoop rest (S i) n s2
  end.

Definition methodSignatureOf (web3Url : Web3URL) : string :=
  signatureLoop (MethodArgs web3Url) 0 (length (MethodArgs web3Url))
                (MethodName web3Url +:+ "(") +:+ ")".

(** The first part of [FetchContractReturn]: the calldata and the value of
    the variable [err] after the three-way branch; [inl] is the early
    return of the packing error. *)
Definition deduceCalldata (web3Url : Web3URL) : error + (bytes * option error) :=
  if String.eqb (ContractCallMode web3Url) ContractCallModeMethod then
    match Pack (MethodArgs web3Url) (MethodArgValues web3Url) with
    | Err err => inl err
    | Ok calldataArgumentsPart =>
        let methodSignatureHash := Keccak256 (bytes_of_string (methodSignatureOf web3Url)) in
        inr (firstn 4 methodSignatureHash ++ calldataArgumentsPart, None)
    end
  else if String.eqb (ContractCallMode web3Url) ContractCallModeCalldata then
    inr (Calldata web3Url, None)
  else
    inr ([], Some (errors_New "ContractCallMode is empty")).

(** The message [callMessage] that [FetchContractReturn] prepares. *)
Definition callMessageFor (web3Url : Web3URL) (calldata : bytes) : CallMsg :=
  mkCallMsg (HexToAddress "0x0000000000000000000000000000000000000000")
            (Some (ContractAddress web3Url)) 0 None None None calldata None.

Definition FetchContractReturn (cfg : Config Z) (web3Url : Web3URL)
  : Eff (bytes * option error) :=
  match deduceCalldata web3Url with
  | inl err => mret ([], Some err)
  | inr (calldata, err) =>
      let callMessage := callMessageFor web3Url calldata in
      let rpc := rpcOf cfg (ChainId web3Url) in
      _ ← emit (EvDial rpc);
      (* [ethClient, err := ethclient.Dial(...)] assigns the same [err] *)
      let err := Dial rpc in
      match err with
      | Some e => mret ([], Some (ErrWeb3 (mkWeb3Error StatusBadRequest e)))
      | None =>
          defer (EvClose rpc)
            ('(contractReturn, err) ← callContract rpc callMessage;
             match err with
             | Some e => mret (contractReturn, Some (ErrWeb3 (mkWeb3Error StatusNotFound e)))
             | None =>
                 if (length contractReturn =? 0)%nat then
                   mret (contractReturn,
                         Some (ErrWeb3 (mkWeb3Error StatusNotFound no_data_message)))
                 else mret (contractReturn, None)
             end)
      end
  end.

(** [unpackedValues[0].([]byte)] *)
Definition first_bytes (unpackedValues : list GoValue) : outcome bytes :=
  match unpackedValues !! 0%nat with
  | None => Panics index_out_of_range
  | Some v =>
      match as_bytes v with
      | None => Panics bad_type_assertion
      | Some b => Returns b
      end
  end.

(** The formatting loop of the [jsonEncodeValues] branch. *)
Fixpoint formatValues (argsArguments : list AbiType) (i : nat)
    (unpackedValues formattedValues : list GoValue) : outcome (result (list GoValue)) :=
  match argsArguments with
  | [] => Returns (Ok formattedValues)
  | ty :: rest =>
      match unpackedValues !! i with
      | None => Panics index_out_of_range
      | Some v =>
          match toJSON ty v with
          | (_, Some err) => Returns (Err err)
          | (formattedValue, None) =>
              formatValues rest (S i) unpackedValues (formattedValues ++ [formattedValue])
          end
      end
  end.

Definition setOutput (f : FetchedWeb3URL) (o : bytes) (code : Z) : FetchedWeb3URL :=
  mkFetchedWeb3URL (ParsedUrl f) (ContractReturn f) (Some o) code (HttpHeaders f).

Definition setHeader (f : FetchedWeb3URL) (k v : string) : FetchedWeb3URL :=
  mkFetchedWeb3URL (ParsedUrl f) (ContractReturn f) (Output f) (HttpCode f)
                   (<[k := v]> (HttpHeaders f)).

Definition unparsable : error :=
  ErrWeb3 (mkWeb3Error StatusBadRequest "Unable to parse contract output").

Definition ProcessContractReturn (web3Url : Web3URL) (contractReturn : bytes)
  : outcome (FetchedWeb3URL * option error) :=
  let fetchedWeb3Url := emptyFetched in
  let mode := ContractReturnProcessing web3Url in
  if String.eqb mode "" then
    Returns (fetchedWeb3Url, Some (errors_New "Missing ContractReturnProcessing field"))
  else if String.eqb mode ContractReturnProcessingABIEncodedBytes then
    let bytesType := match NewType "bytes" with Ok t => t | Err _ => zero_AbiType end in
    match UnpackValues [bytesType] contractReturn with
    | Err _ => Returns (fetchedWeb3Url, Some unparsable)
    | Ok unpackedValues =>
        match first_bytes unpackedValues with
        | Panics r => Panics r
        | Returns o =>
            let f1 := setOutput fetchedWeb3Url o 200 in
            let f2 :=
              if negb (String.eqb (DecodedABIEncodedBytesMimeType web3Url) "")
              then setHeader f1 "Content-Type" (DecodedABIEncodedBytesMimeType web3Url)
              else f1 in
            Returns (f2, None)
        end
    end
  else if String.eqb mode ContractReturnProcessingRawBytesJsonEncoded then
    match Marshal_strings ["0x" +:+ Bytes2Hex contractReturn] with
    | Err err => Returns (fetchedWeb3Url, Some err)
    | Ok jsonEncodedOutput =>
        Returns (setHeader (setOutput fetchedWeb3Url jsonEncodedOutput 200)
                           "Content-Type" "application/json", None)
    end
  else if String.eqb mode ContractReturnProcessingJsonEncodeValues then
    let argsArguments := JsonEncodedValueTypes web3Url in
    match UnpackValues argsArguments contractReturn with
    | Err _ => Returns (fetchedWeb3Url, Some unparsable)
    | Ok unpackedValues =>
        match formatValues argsArguments 0 unpackedValues [] with
        | Panics r => Panics r
        | Returns (Err err) => Returns (fetchedWeb3Url, Some err)
        | Returns (Ok formattedValues) =>
            match Marshal_values formattedValues with
            | Err err => Returns (fetchedWeb3Url, Some err)
            | Ok jsonEncodedOutput =>
                Returns (setHeader (setOutput fetchedWeb3Url jsonEncodedOutput 200)
                                   "Content-Type" "application/json", None)
            end
        end
    end
  else Returns (fetchedWeb3Url, None).

(** [checkResolveMode]: the probe of [resolveMode()].  The error of
    [ethclient.Dial] is dropped, so that after a failed dial the call is made
    on a nil client. *)
Definition checkResolveMode (cfg : Config Z) (web3Url : Web3URL) : Eff ResolveMode :=
  match parseArguments 0%Z (ContractAddress web3Url) ["resolveMode"] with
  | (_, Some err) => panic (Error err)
  | (msg, None) =>
      let rpc := rpcOf cfg (ChainId web3Url) in
      _ ← emit (EvDial rpc);
      match Dial rpc with
      | Some _ => panic nil_dereference
      | None =>
          defer (EvClose rpc)
            ('(bs, e) ← callContract rpc msg;
             match e with
             | Some _ => mret ResolveModeAuto
             | None =>
                 if (length bs =? 32)%nat then
                   if String.eqb (Bytes2Hex bs) manual_hex then mret ResolveModeManual
                   else if String.eqb (Bytes2Hex bs) erc5219_hex
                        then mret ResolveModeResourceRequests
                        else mret ResolveModeAuto
                 else mret ResolveModeAuto
             end)
      end
  end.

End Defs.

End Client.

(** ** Test doubles

    Small executable instances of the capabilities, on which the functions
    above can be run: a normalizer that lower-cases the ASCII letters and
    maps the ideographic and full-width full stops to the dot, as the lookup
    profile does, and keeps leading dots; a toy digest, go-ethereum's reading of address
    text, a codec with two kinds of values, and a transport that answers
    every call in the same way. *)

Module Mock.

Definition lower_ascii (c : ascii) : ascii :=
  let n := nat_of_ascii c in
  if (65 <=? n)%nat && (n <=? 90)%nat then ascii_of_nat (n + 32) else c.

Fixpoint lower (s : string) : string :=
  match s with
  | EmptyString => EmptyString
  | String c rest => String (lower_ascii c) (lower rest)
  end.

(** The three bytes of U+3002, U+FF0E or U+FF61 in UTF-8: the full stops
    that the profile maps to the dot. *)
Definition isFullStop (a b c : ascii) : bool :=
  let code := (nat_of_ascii a, nat_of_ascii b, nat_of_ascii c) in
  match code with
  | (227, 128, 130) | (239, 188, 142) | (239, 189, 161) => true
  | _ => false
  end%nat.

Fixpoint mapDots (s : string) : string :=
  match s with
  | EmptyString => EmptyString
  | String a t1 =>
      match t1 with
      | String b (String c rest) =>
          if isFullStop a b c then String "." (mapDots rest)
          else String a (mapDots t1)
      | _ => String a (mapDots t1)
      end
  end.

Definition normalizer : Normalizer :=
  {| ToUnicode := fun s => (lower (mapDots s), None) |}.

(** U+3002, the ideographic full stop, in UTF-8, and a name that begins
    with it. *)
Definition ideographicFullStop : string :=
  String (ascii_of_nat 227) (String (ascii_of_nat 128)
    (String (ascii_of_nat 130) EmptyString)).

Definition fullStopName : string := ideographicFullStop +:+ "eth".

(** Not keccak-256: 32 bytes that depend on the input. *)
Definition hasher : Hasher :=
  {| Keccak256 := fun bs => firstn 32 (rev bs ++ repeat x01 32) |}.

Fixpoint hexBytes (s : string) : bytes :=
  match s with
  | String h (String l rest) =>
      match byte_of_hex (lower (String h (String l EmptyString))) with
      | Some b => b :: hexBytes rest
      | None => []
      end
  | _ => []
  end.

Definition strip0x (s : string) : string :=
  match s with
  | String "0" (String "x" rest) => rest
  | String "0" (String "X" rest) => rest
  | _ => s
  end.

Definition leftPad (n : nat) (b : bytes) : bytes :=
  let b' := skipn (length b - n) b in repeat zero_byte (n - length b') ++ b'.

Definition common : Common :=
  {| IsHexAddress := fun s =>
       let d := strip0x s in
       (String.length d =? 40)%nat && (length (hexBytes d) =? 20)%nat;
     HexToAddress := fun s => leftPad 20 (hexBytes (strip0x s));
     BytesToAddress := leftPad 20;
     ToLower := lower |}.

(** A transport: [dialErr] is what [Dial] answers, [reply] what every
    contract call answers. *)
Definition caller (dialErr : option string) (reply : CallMsg -> bytes * option string)
  : EthCaller :=
  {| Dial := fun _ => dialErr; CallContract := fun _ msg => reply msg |}.

Inductive value :=
| VStr (s : string)
| VBytes (b : bytes).

Definition codec : AbiCodec :=
  {| AbiType := string;
     GoValue := value;
     zero_AbiType := EmptyString;
     type_String := fun t => t;
     NewType := fun s => Ok s;
     Pack := fun tys vals =>
       if (length tys =? length vals)%nat
       then Ok (concat (map (fun v => match v with
                                      | VStr s => bytes_of_string s
                                      | VBytes b => b
                                      end) vals))
       else Err (ErrOther "argument count mismatch");
     UnpackValues := fun tys bs =>
       match tys with
       | [_] => if (length bs <? 32)%nat then Err (ErrOther "abi: output too short")
                else Ok [VBytes bs]
       | _ => Err (ErrOther "abi: unsupported")
       end;
     as_bytes := fun v => match v with VBytes b => Some b | _ => None end;
     as_string := fun v => match v with VStr s => Some s | _ => None end;
     of_string := VStr;
     Marshal_strings := fun ss => Ok (bytes_of_string (String.concat "," ss));
     Marshal_values := fun vs => Ok (bytes_of_string "[]") |}.

Definition helpers (K : Type) (C : EthCaller) : @Helpers K codec :=
  {| parseArguments := fun _ addr args =>
       (mkCallMsg zero_address (Some addr) 0 None None None
                  (bytes_of_string (String.concat "," args)) None, None);
     handleCallContract := fun rpc msg =>
       mkEff [EvCall rpc msg]
             (Returns (fst (CallContract rpc msg),
                       option_map (fun m => ErrWeb3 (mkWeb3Error StatusNotFound m))
                                  (snd (CallContract rpc msg))));
     toJSON := fun (ty : @AbiType codec) (v : @GoValue codec) =>
       match v return @GoValue codec * option error with
       | VBytes b => (VStr ("0x" +:+ Bytes2Hex (leftPad 20 b)), None)
       | VStr s => (VStr s, None)
       end |}.

(** A configuration with one chain, one name service of each kind and one
    chain short name. *)
Definition nsTable : gmap string NameServiceInfo :=
  <["eth" := mkNameServiceInfo EthereumNameService "0x00000000000000000000000000000000000000aa"]>
  (<["w3q" := mkNameServiceInfo Web3QNameService "0x00000000000000000000000000000000000000bb"]>
  (<["sim" := mkNameServiceInfo SimpleNameService "0x00000000000000000000000000000000000000cc"]> ∅)).

Definition ensConfig : Config string :=
  mkConfig (<["1" := mkChainConfig "https://rpc.example" nsTable]> ∅)
           (<["gno" := "100"]> ∅).

Definition clientConfig : Config Z :=
  mkConfig (<[1%Z := mkChainConfig "https://rpc.example" nsTable]> ∅)
           (<["gno" := 100%Z]> ∅).

Definition addr1 : Address := repeat zero_byte 19 ++ [x01].

(** A URL record in [method] mode for [balanceOf(address,uint256)], one in
    [calldata] mode, one with the call mode left empty, and one whose return
    is to be processed as [erc5219]. *)
Definition urlWith (callMode returnProcessing : string) : @Client.Web3URL codec :=
  @Client.mkWeb3URL codec "web3://0x0000000000000000000000000000000000000001/"
    "" 0 addr1 1 Client.ResolveModeAuto callMode [xde; xad] "balanceOf"
    ["address"; "uint256"] [VBytes [x01]; VBytes [x02]]
    returnProcessing "" [].

Definition methodUrl := urlWith Client.ContractCallModeMethod
                                Client.ContractReturnProcessingABIEncodedBytes.
Definition calldataUrl := urlWith Client.ContractCallModeCalldata
                                  Client.ContractReturnProcessingABIEncodedBytes.
Definition emptyModeUrl := urlWith "" Client.ContractReturnProcessingABIEncodedBytes.
Definition erc5219Url := urlWith Client.ContractCallModeMethod
                                 Client.ContractReturnProcessingErc5219.

End Mock.

(** ** Definitions that follow the words of the specification *)

(** "the 32-byte value consisting of ASCII manual right-padded with zero
    bytes", and the same for 5219. *)
Definition manual_return : bytes := RightPadBytes (bytes_of_string "manual") 32.
Definition erc5219_return : bytes := RightPadBytes (bytes_of_string "5219") 32.

(** "start with 32 zero bytes; iterate right to left; at each step, hash
    = keccak256(prev_hash || keccak256(label))", over a list of labels given
    from left to right. *)
Definition namehashRec {hasher : Hasher} (labels : list string) : bytes :=
  fold_right (fun label prev => Keccak256 (prev ++ Keccak256 (bytes_of_string label)))
             zero_hash labels.

(** "the signature string name(type1,type2,...) (the argument types joined
    with commas, no spaces)". *)
Definition signatureText (name : string) (types : list string) : string :=
  name +:+ "(" +:+ String.concat "," types +:+ ")".

(** "the first 4 bytes of keccak256 of the signature string". *)
Definition selectorOf {hasher : Hasher} (name : string) (types : list string) : bytes :=
  firstn 4 (Keccak256 (bytes_of_string (signatureText name types))).

(** What [checkResolveMode] yields once the message is built and the
    endpoint dialled, as a function of the answer of the contract. *)
Definition modeOfReply (reply : bytes * option string) : Client.ResolveMode :=
  match reply with
  | (_, Some _) => Client.ResolveModeAuto
  | (bs, None) =>
      if bool_decide (bs = manual_return) then Client.ResolveModeManual
      else if bool_decide (bs = erc5219_return) then Client.ResolveModeResourceRequests
      else Client.ResolveModeAuto
  end.

(** ** Shapes of results, for the statements about the name-service side *)

(** What a result of the resolution looks like: with an error there is no
    address and no chain; without one the address was read from a text that
    is a hex address, and the chain is empty or a value of [Name2Chain]. *)
Definition wellFormedResolution {common : Common} (cfg : Config string)
    (r : Address * string * option error) : Prop :=
  match r with
  | (a, c, Some _) => a = zero_address /\ c = ""
  | (a, c, None) =>
      (exists h, IsHexAddress h = true /\ a = HexToAddress h) /\
      (c = "" \/ exists k, Name2Chain cfg !! k = Some c)
  end.

(** An event that is a contract call. *)
Definition callEvent (e : Event) : Prop := is_call e = true.

(** The traces of a function that dials once and closes what it dialled:
    a failed dial alone, or one dial, then contract calls only, then one
    close. *)
Definition dialledOnce (rpc : string) (dialOk : bool) (t : list Event) : Prop :=
  if dialOk then
    exists body, t = EvDial rpc :: body ++ [EvClose rpc] /\ Forall callEvent body
  else t = [EvDial rpc].

(** The number of dials in a trace. *)
Definition dials (t : list Event) : nat :=
  length (List.filter (fun e => match e with EvDial _ => true | _ => false end) t).

(** The arguments and the return type of the lookup that
    [getAddressFromNameServiceWebHandler] tries before [addr]: [webHandler]
    for the Web3Q service, the text record [contentcontract] otherwise. *)
Definition probeOf (nsInfo : NameServiceInfo) (node : string) : list string * string :=
  if bool_decide (NSType nsInfo = Web3QNameService)
  then (["webHandler"; "bytes32!" +:+ node], "(address)")
  else (["text"; "bytes32!" +:+ node; "string!contentcontract"], "(string)").

(** The [addr] lookup both entry points end with. *)
Definition addrArgs (node : string) : list string := ["addr"; "bytes32!" +:+ node].

(** The ABI encoding of the empty string, as bytes: the offset 0x20 and
    the length 0, each on 32 bytes. *)
Definition emptyStringReturn : bytes :=
  repeat zero_byte 31 ++ [x20] ++ repeat zero_byte 32.

(** The three values of [ContractReturnProcessing] that
    [ProcessContractReturn] has a branch for. *)
Definition implementedProcessing (mode : string) : Prop :=
  mode = Client.ContractReturnProcessingABIEncodedBytes
  \/ mode = Client.ContractReturnProcessingRawBytesJsonEncoded
  \/ mode = Client.ContractReturnProcessingJsonEncodeValues.

(** ** URLs: [ParseUrl] and [FetchUrl] (client file) *)

Module Url.

(** The named groups of the pattern of [ParseUrl], that is the map
    [urlMainParts]; a group that takes no part in the match is the empty
    text. *)
Record UrlMainParts := mkUrlMainParts {
  protocol : string;
  hostname : string;
  chainId : string;
  path : string;
  pathname : string;
  searchParams : string
}.

(** The longest prefix of characters that satisfy [keep], and the rest. *)
Fixpoint span (keep : ascii -> bool) (s : string) : string * string :=
  match s with
  | EmptyString => (EmptyString, EmptyString)
  | String c rest =>
      if keep c then
        let '(taken, remaining) := span keep rest in (String c taken, remaining)
      else (EmptyString, s)
  end.

Fixpoint allChars (keep : ascii -> bool) (s : string) : bool :=
  match s with
  | EmptyString => true
  | String c rest => keep c && allChars keep rest
  end.

(** The character classes of the pattern: every character but the colon;
    every character but the colon, the slash and the question mark; every
    character but the question mark; the decimal digits; and the dot of the
    pattern, which is every character but the line feed. *)
Definition notColon (c : ascii) : bool := negb (Ascii.eqb c ":").
Definition hostChar (c : ascii) : bool :=
  negb (Ascii.eqb c ":" || Ascii.eqb c "/" || Ascii.eqb c "?").
Definition notQuestion (c : ascii) : bool := negb (Ascii.eqb c "?").
Definition isDigit (c : ascii) : bool :=
  (48 <=? nat_of_ascii c)%nat && (nat_of_ascii c <=? 57)%nat.
Definition notLineFeed (c : ascii) : bool := negb (Ascii.eqb c (ascii_of_nat 10)).

(** The optional group of the chain identifier at the head of [s]: a
    colon, a digit from 1 to 9 and any number of digits.  The result is the
    digits and what is left for the path.  After a colon the digits are
    required, since the path cannot begin with a colon. *)
Definition matchChainId (s : string) : option (string * string) :=
  match s with
  | String c rest =>
      if Ascii.eqb c ":" then
        let '(digits, remaining) := span isDigit rest in
        match digits with
        | EmptyString => None
        | String d _ => if Ascii.eqb d "0" then None else Some (digits, remaining)
        end
      else Some (EmptyString, s)
  | EmptyString => Some (EmptyString, EmptyString)
  end.

(** The optional path on all of [s], up to the end of the text: the
    optional path name, a slash and any number of characters other than the
    question mark, and the optional search parameters, a question mark and
    any number of characters other than the line feed. *)
Definition matchPath (s : string) : option (string * string) :=
  let '(name, remaining) :=
    match s with
    | String c _ => if Ascii.eqb c "/" then span notQuestion s else (EmptyString, s)
    | EmptyString => (EmptyString, EmptyString)
    end in
  match remaining with
  | EmptyString => Some (name, EmptyString)
  | String c query =>
      if Ascii.eqb c "?" && allChars notLineFeed query then Some (name, query)
      else None
  end.

(** [web3UrlRegexp.FindStringSubmatch(url)] and the loop that collects the
    named groups.  The pattern is anchored at both ends: the protocol, one
    or more characters other than the colon; a colon and two slashes; the
    host name, one or more characters other than the colon, the slash and
    the question mark; the optional chain identifier; the optional path.
    Every repetition of the pattern is followed by a character outside its
    class or by the end, so the match, when there is one, is the one that
    takes the longest run each time. *)
Definition matchWeb3Url (url : string) : option UrlMainParts :=
  let '(proto, r1) := span notColon url in
  match proto, r1 with
  | String _ _, String c0 (String c1 (String c2 r2)) =>
      if Ascii.eqb c0 ":" && Ascii.eqb c1 "/" && Ascii.eqb c2 "/" then
        let '(host, r3) := span hostChar r2 in
        match host with
        | EmptyString => None
        | String _ _ =>
            match matchChainId r3 with
            | None => None
            | Some (chain, r4) =>
                match matchPath r4 with
                | None => None
                | Some (name, query) => Some (mkUrlMainParts proto host chain r4 name query)
                end
            end
        end
      else None
  | _, _ => None
  end.

(** [strconv.Atoi] on an [int] of 64 bits: an optional sign and decimal
    digits, within the range of the type. *)
Fixpoint digitsValue (s : string) (acc : Z) : option Z :=
  match s with
  | EmptyString => Some acc
  | String c rest =>
      if isDigit c then digitsValue rest (10 * acc + Z.of_nat (nat_of_ascii c - 48))
      else None
  end.

Definition maxInt : Z := 2 ^ 63 - 1.

Definition Atoi (s : string) : option Z :=
  let unsigned (digits : string) : option Z :=
    match digits with
    | EmptyString => None
    | _ => digitsValue digits 0
    end in
  match s with
  | String c rest =>
      if Ascii.eqb c "-" then
        match unsigned rest with
        | Some v => if (v <=? maxInt + 1)%Z then Some (- v)%Z else None
        | None => None
        end
      else
        match unsigned (if Ascii.eqb c "+" then rest else s) with
        | Some v => if (v <=? maxInt)%Z then Some v else None
        | None => None
        end
  | EmptyString => None
  end.

(** [fmt.Sprintf("%v", n)] for an [int]. *)
Definition Itoa (n : Z) : string := NilZero.string_of_int (Z.to_int n).

(** What the client file uses and the two files do not hold: the cache
    [nameAddrCache] with its methods [get] and [add]; the text of a kind of
    name service ([web3Url.HostDomainNameResolver = nsInfo.NSType]); the
    name-service entry point as [ParseUrl] calls it, with the integer
    identifier of the chain and an integer target chain ([ens.go] declares
    it over text identifiers); and the parsers of the manual and auto
    modes, methods of the client that update the URL record. *)
Class ClientEnv `{AbiCodec} := {
  localCache : Type;
  cache_get : localCache -> string -> Address * Z * bool;
  cache_add : localCache -> string -> Address -> Z -> localCache;
  nsTypeName : NameServiceType -> string;
  getAddressFromNameServiceWebHandler : Z -> string -> Eff (Address * Z * option error);
  parseManualModeUrl :
    option localCache -> Client.Web3URL -> UrlMainParts ->
    Eff (Client.Web3URL * option error * option localCache);
  parseAutoModeUrl :
    option localCache -> Client.Web3URL -> UrlMainParts ->
    Eff (Client.Web3URL * option error * option localCache)
}.

Section Defs.
Context {hasher : Hasher} {common : Common} {caller : EthCaller}
        {codec : AbiCodec} {helpers : Helpers Z} {env : ClientEnv}.

Definition badRequest (msg : string) : error :=
  ErrWeb3 (mkWeb3Error StatusBadRequest msg).

(** The chain of the URL: mainnet unless the URL names one, and in either
    case a key of [ChainConfigs]. *)
Definition chainOf (cfg : Config Z) (urlMainParts : UrlMainParts) : result Z :=
  let named :=
    if (0 <? String.length (chainId urlMainParts))%nat then
      match Atoi (chainId urlMainParts) with
      | None => Err (badRequest ("Unsupported chain " +:+ chainId urlMainParts))
      | Some n => Ok n
      end
    else Ok 1%Z in
  match named with
  | Err e => Err e
  | Ok chain =>
      match ChainConfigs cfg !! chain with
      | None => Err (badRequest ("Unsupported chain " +:+ Itoa chain))
      | Some _ => Ok chain
      end
  end.

(** The cache look-up and, on a miss, the resolution of the name, with the
    insertion of what was found: the address and the target chain. *)
Definition lookupName (cache : option localCache) (chain : Z) (host : string)
  : Eff (result (Address * Z) * option localCache) :=
  let cacheKey := Itoa chain +:+ ":" +:+ host in
  let '(addr, targetChain, hit) :=
    match cache with
    | Some c => cache_get c cacheKey
    | None => (zero_address, 0%Z, false)
    end in
  if hit then mret (Ok (addr, targetChain), cache)
  else
    '(addr, targetChain, err) ← getAddressFromNameServiceWebHandler chain host;
    match err with
    | Some e => mret (Err e, cache)
    | None =>
        mret (Ok (addr, targetChain),
              option_map (fun c => cache_add c cacheKey addr targetChain) cache)
    end.

(** The host of the URL: the resolver kind, the resolver chain, the
    contract address and the chain of the call. *)
Definition resolveHost (cfg : Config Z) (cache : option localCache)
    (chain : Z) (host : string)
  : Eff (result (string * Z * Address * Z) * option localCache) :=
  if IsHexAddress host then mret (Ok ("", 0%Z, HexToAddress host, chain), cache)
  else
    let ss := Split host "." in
    if (length ss <=? 1)%nat then
      mret (Err (badRequest "Invalid contract address"), cache)
    else
      let nameServiceSuffix := last_part ss in
      let chainInfo := default zero_ChainConfig (ChainConfigs cfg !! chain) in
      match NSConfig chainInfo !! nameServiceSuffix with
      | None =>
          mret (Err (badRequest ("Unsupported domain name service suffix: "
                                 +:+ nameServiceSuffix)), cache)
      | Some nsInfo =>
          '(looked, cache1) ← lookupName cache chain host;
          match looked with
          | Err e => mret (Err e, cache1)
          | Ok (addr, targetChain) =>
              let chain1 := if (0 <? targetChain)%Z then targetChain else chain in
              match ChainConfigs cfg !! chain1 with
              | None =>
                  mret (Err (badRequest ("unsupported chain id: " +:+ Itoa chain1)),
                        cache1)
              | Some _ =>
                  mret (Ok (nsTypeName (NSType nsInfo), chain, addr, chain1), cache1)
              end
          end
      end.

(** The URL record when the host is resolved: the fields set so far and
    the zero value elsewhere.  The field [ResolveMode] is written with the
    answer of [checkResolveMode] before anything reads it. *)
Definition resolvedUrl (url resolver : string) (resolverChain : Z)
    (addr : Address) (chain : Z) (mode : Client.ResolveMode) : Client.Web3URL :=
  Client.mkWeb3URL url resolver resolverChain addr chain mode
                   "" [] "" [] [] "" "" [].

(** [ParseUrl].  A record that the source returns together with an error
    is partly filled and is read by no caller in the two files: the model
    returns the error alone.  The cache goes in and comes out. *)
Definition ParseUrl (cfg : Config Z) (cache : option localCache) (url : string)
  : Eff (result Client.Web3URL * option localCache) :=
  match matchWeb3Url url with
  | None => mret (Err (badRequest "Invalid URL format"), cache)
  | Some urlMainParts =>
      if negb (String.eqb (protocol urlMainParts) "web3") then
        mret (Err (badRequest "Protocol name is invalid"), cache)
      else
        match chainOf cfg urlMainParts with
        | Err e => mret (Err e, cache)
        | Ok chain =>
            '(host, cache1) ← resolveHost cfg cache chain (hostname urlMainParts);
            match host with
            | Err e => mret (Err e, cache1)
            | Ok (resolver, resolverChain, addr, chain1) =>
                mode ← Client.checkResolveMode cfg
                         (resolvedUrl url resolver resolverChain addr chain1
                                      Client.ResolveModeAuto);
                let web3Url := resolvedUrl url resolver resolverChain addr chain1 mode in
                match mode with
                | Client.ResolveModeManual =>
                    '(parsed, err, cache2) ← parseManualModeUrl cache1 web3Url urlMainParts;
                    mret (match err with Some e => Err e | None => Ok parsed end, cache2)
                | Client.ResolveModeAuto =>
                    '(parsed, err, cache2) ← parseAutoModeUrl cache1 web3Url urlMainParts;
                    mret (match err with Some e => Err e | None => Ok parsed end, cache2)
                | Client.ResolveModeResourceRequests => mret (Ok web3Url, cache1)
                end
            end
        end
  end.

(** [FetchUrl].  The record returned with an error of the first two steps
    is the zero value, whose nil header map reads as the empty one. *)
Definition FetchUrl (cfg : Config Z) (cache : option localCache) (url : string)
  : Eff (Client.FetchedWeb3URL * option error * option localCache) :=
  '(parsed, cache1) ← ParseUrl cfg cache url;
  match parsed with
  | Err e => mret (Client.emptyFetched, Some e, cache1)
  | Ok parsedUrl =>
      '(contractReturn, err) ← Client.FetchContractReturn cfg parsedUrl;
      match err with
      | Some e => mret (Client.emptyFetched, Some e, cache1)
      | None =>
          match Client.ProcessContractReturn parsedUrl contractReturn with
          | Panics r => panic r
          | Returns (fetchedUrl, err) => mret (fetchedUrl, err, cache1)
          end
      end
  end.

End Defs.

End Url.

(** The probe that [ParseUrl] makes once the host is resolved. *)
Definition resolvedUrl_probe {caller : EthCaller} {codec : AbiCodec}
    {helpers : Helpers Z} (cfg : Config Z) (url resolver : string)
    (resolverChain : Z) (addr : Address) (chain : Z) : Eff Client.ResolveMode :=
  Client.checkResolveMode cfg
    (Url.resolvedUrl url resolver resolverChain addr chain Client.ResolveModeAuto).

(** ** Test doubles for the URL functions

    A cache that is a finite map, the name resolution of [ens.go] run on the
    configuration of the test doubles with the chain identifiers printed and
    read as decimal numbers, and two mode parsers that fill the call and the
    return processing in a fixed way. *)

Module MockUrl.

Definition withCall (u : @Client.Web3URL Mock.codec) (callMode : string)
    (calldata : bytes) (name : string) : @Client.Web3URL Mock.codec :=
  @Client.mkWeb3URL Mock.codec
    (Client.Url u) (Client.HostDomainNameResolver u)
    (Client.HostDomainNameResolverChainId u) (Client.ContractAddress u)
    (Client.ChainId u) (Client.ResolveMode_ u) callMode calldata name [] []
    Client.ContractReturnProcessingRawBytesJsonEncoded "" [].

Definition env (C : EthCaller) : @Url.ClientEnv Mock.codec :=
  {| Url.localCache := gmap string (Address * Z);
     Url.cache_get := fun c k =>
       match c !! k with
       | Some (a, t) => (a, t, true)
       | None => (zero_address, 0%Z, false)
       end;
     Url.cache_add := fun c k a t => <[k := (a, t)]> c;
     Url.nsTypeName := fun t =>
       match t with
       | Web3QNameService => Client.DomainNameServiceW3NS
       | EthereumNameService => Client.DomainNameServiceENS
       | SimpleNameService => "simple"
       end;
     Url.getAddressFromNameServiceWebHandler := fun chain host =>
       Ens.getAddressFromNameServiceWebHandler
         (normalizer := Mock.normalizer) (hasher := Mock.hasher)
         (common := Mock.common) (caller := C) (helpers := Mock.helpers string C)
         Mock.ensConfig (Url.Itoa chain) host
       ≫= fun '(a, c, e) => mret (a, default 0%Z (Url.Atoi c), e);
     Url.parseManualModeUrl := fun cache u parts =>
       mret (withCall u Client.ContractCallModeCalldata
                      (bytes_of_string (Url.path parts)) "", None, cache);
     Url.parseAutoModeUrl := fun cache u parts =>
       mret (withCall u Client.ContractCallModeMethod [] (Url.pathname parts),
             None, cache) |}.

(** A transport that answers the probe [resolveMode] with [probe] and every
    other call with [reply]. *)
Definition probing (probe reply : bytes) : EthCaller :=
  Mock.caller None (fun msg =>
    if bool_decide (Data msg = bytes_of_string "resolveMode")
    then (probe, None) else (reply, None)).

(** A transport that answers every call with [reply], and one that cannot
    be dialled. *)
Definition answering (reply : bytes) : EthCaller :=
  Mock.caller None (fun _ => (reply, None)).

Definition unreachable : EthCaller :=
  Mock.caller (Some "dial tcp: connection refused") (fun _ => ([], None)).

(** The 32 bytes of the address 0x...04. *)
Definition address4 : bytes := repeat zero_byte 31 ++ [x04].

(** A configuration whose chain "1" has a simple name service under the
    suffix [s]. *)
Definition tinyConfig : Config string :=
  mkConfig
    (<["1" := mkChainConfig "https://rpc.example"
                (<["s" := mkNameServiceInfo SimpleNameService
                            "0x00000000000000000000000000000000000000cc"]> ∅)]> ∅)
    ∅.

(** A cache that holds [example.eth] on chain 1, with the target chain 100. *)
Definition warmCache : gmap string (Address * Z) :=
  <["1:example.eth" := (Mock.addr1, 100%Z)]> ∅.

End MockUrl.

(** * Properties *)

(** ** The string and byte functions on examples *)

Example Split_three : Split "a.b.c" "." = ["a"; "b"; "c"].
Proof. reflexivity. Qed.

Example Split_empty : Split "" "." = [""].
Proof. reflexivity. Qed.

Example Split_trailing : Split "a." "." = ["a"; ""].
Proof. reflexivity. Qed.

Example Trim_parens : Trim "(address)" "()" = "address".
Proof. reflexivity. Qed.

Example Bytes2Hex_example : Bytes2Hex [x6d; x61; x00; xff] = "6d6100ff".
Proof. reflexivity. Qed.

(** ** Hexadecimal text determines the bytes *)

Lemma byte_of_hex_of_byte (b : byte) : byte_of_hex (hex_of_byte b) = Some b.
Proof. destruct b; reflexivity. Qed.

Lemma hex_of_byte_shape (b : byte) :
  exists h l, hex_of_byte b = String h (String l EmptyString).
Proof. unfold hex_of_byte. eauto. Qed.

Lemma Bytes2Hex_cons_inv (a b : byte) (s t : string) :
  hex_of_byte a +:+ s = hex_of_byte b +:+ t -> a = b /\ s = t.
Proof.
  destruct (hex_of_byte_shape a) as (h1 & l1 & Ha).
  destruct (hex_of_byte_shape b) as (h2 & l2 & Hb).
  rewrite Ha, Hb. simpl. intros E. injection E as E1 E2 E3.
  split; [|assumption].
  assert (Some a = Some b) as S; [|now injection S].
  rewrite <- (byte_of_hex_of_byte a), <- (byte_of_hex_of_byte b).
  rewrite Ha, Hb. now subst.
Qed.

Lemma Bytes2Hex_inj (xs ys : bytes) : Bytes2Hex xs = Bytes2Hex ys -> xs = ys.
Proof.
  revert ys. induction xs as [|a xs IH]; intros [|b ys]; simpl; intros E.
  - reflexivity.
  - destruct (hex_of_byte_shape b) as (h & l & Hb). rewrite Hb in E. discriminate.
  - destruct (hex_of_byte_shape a) as (h & l & Ha). rewrite Ha in E. discriminate.
  - apply Bytes2Hex_cons_inv in E as [-> E]. f_equal. now apply IH.
Qed.

Lemma Bytes2Hex_eqb (bs expected : bytes) :
  String.eqb (Bytes2Hex bs) (Bytes2Hex expected) = true <-> bs = expected.
Proof.
  rewrite String.eqb_eq. split; [apply Bytes2Hex_inj | now intros ->].
Qed.

(** ** The resolve-mode probe *)

Lemma manual_hex_is_manual_return : Bytes2Hex manual_return = Client.manual_hex.
Proof. reflexivity. Qed.

Lemma erc5219_hex_is_erc5219_return : Bytes2Hex erc5219_return = Client.erc5219_hex.
Proof. reflexivity. Qed.

Section ResolveModeProbe.
Context {hasher : Hasher} {common : Common} {caller : EthCaller}
        {codec : AbiCodec} {helpers : Helpers Z}.

Lemma checkResolveMode_out (cfg : Config Z) (web3Url : Client.Web3URL) (msg : CallMsg) :
  parseArguments 0%Z (Client.ContractAddress web3Url) ["resolveMode"] = (msg, None) ->
  Dial (Client.rpcOf cfg (Client.ChainId web3Url)) = None ->
  out (Client.checkResolveMode cfg web3Url)
  = Returns (modeOfReply (CallContract (Client.rpcOf cfg (Client.ChainId web3Url)) msg)).
Proof.
  intros Hargs Hdial. unfold Client.checkResolveMode. rewrite Hargs. cbn.
  rewrite Hdial. cbn.
  destruct (CallContract _ msg) as [bs [e|]]; cbn; [reflexivity|].
  rewrite <- manual_hex_is_manual_return, <- erc5219_hex_is_erc5219_return.
  destruct (Nat.eqb_spec (length bs) 32) as [Hlen|Hlen].
  - destruct (String.eqb (Bytes2Hex bs) (Bytes2Hex manual_return)) eqn:Em.
    + apply Bytes2Hex_eqb in Em. subst bs. reflexivity.
    + rewrite bool_decide_eq_false_2
        by (intros ->; rewrite String.eqb_refl in Em; discriminate).
      destruct (String.eqb (Bytes2Hex bs) (Bytes2Hex erc5219_return)) eqn:Er.
      * apply Bytes2Hex_eqb in Er. subst bs. reflexivity.
      * rewrite bool_decide_eq_false_2
          by (intros ->; rewrite String.eqb_refl in Er; discriminate).
        reflexivity.
  - rewrite !bool_decide_eq_false_2; [reflexivity| |]; intros ->; now apply Hlen.
Qed.

(** C1. Once the [resolveMode()] message is built and the endpoint is
    dialled, [checkResolveMode] returns [manual] exactly when the contract
    call returns, without error, the 32 bytes that are ASCII "manual"
    right-padded with zero bytes; it returns [resource-request] exactly when
    the call returns ASCII "5219" right-padded; and it returns [auto] for
    every other returned value and for every error of the call. *)
Theorem checkResolveMode_selects
    (cfg : Config Z) (web3Url : Client.Web3URL) (msg : CallMsg) :
  parseArguments 0%Z (Client.ContractAddress web3Url) ["resolveMode"] = (msg, None) ->
  Dial (Client.rpcOf cfg (Client.ChainId web3Url)) = None ->
  let reply := CallContract (Client.rpcOf cfg (Client.ChainId web3Url)) msg in
  let mode := out (Client.checkResolveMode cfg web3Url) in
  (mode = Returns Client.ResolveModeManual <-> reply = (manual_return, None)) /\
  (mode = Returns Client.ResolveModeResourceRequests <-> reply = (erc5219_return, None)) /\
  (reply <> (manual_return, None) -> reply <> (erc5219_return, None) ->
   mode = Returns Client.ResolveModeAuto) /\
  (forall bs e, reply = (bs, Some e) -> mode = Returns Client.ResolveModeAuto).
Proof.
  intros Hargs Hdial reply mode.
  assert (mode = Returns (modeOfReply reply)) as -> by (now apply checkResolveMode_out).
  clearbody reply. destruct reply as [bs [e|]]; cbn.
  - repeat split; try discriminate; intros; reflexivity.
  - repeat case_bool_decide; subst; repeat split; intros; try congruence;
      try discriminate.
Qed.

End ResolveModeProbe.

(** ** The calldata of a method call *)

Lemma append_assoc (a b c : string) : (a +:+ b) +:+ c = a +:+ (b +:+ c).
Proof.
  induction a as [|x a IH]; [reflexivity|].
  change (String x ((a +:+ b) +:+ c) = String x (a +:+ (b +:+ c))). now rewrite IH.
Qed.

Lemma append_empty_r (a : string) : a +:+ "" = a.
Proof.
  induction a as [|x a IH]; [reflexivity|].
  change (String x (a +:+ "") = String x a). now rewrite IH.
Qed.

Section Calldata.
Context {hasher : Hasher} {common : Common} {caller : EthCaller}
        {codec : AbiCodec} {helpers : Helpers Z}.

Lemma signatureLoop_concat (args : list AbiType) (i : nat) (acc : string) :
  Client.signatureLoop args i (i + length args) acc
  = acc +:+ String.concat "," (map type_String args).
Proof.
  revert i acc. induction args as [|a args IH]; intros i acc.
  - simpl. now rewrite append_empty_r.
  - cbn [Client.signatureLoop length map].
    replace (i + S (length args))%nat with (S i + length args)%nat by lia.
    rewrite IH. destruct args as [|b args].
    + replace (i <? S i + length (@nil AbiType) - 1)%nat with false
        by (symmetry; apply Nat.ltb_ge; simpl; lia).
      cbn [map String.concat]. now rewrite append_empty_r.
    + replace (i <? S i + length (b :: args) - 1)%nat with true
        by (symmetry; apply Nat.ltb_lt; simpl; lia).
      cbn [map String.concat]. now rewrite !append_assoc.
Qed.

Lemma methodSignatureOf_text (web3Url : Client.Web3URL) :
  Client.methodSignatureOf web3Url
  = signatureText (Client.MethodName web3Url)
                  (map type_String (Client.MethodArgs web3Url)).
Proof.
  unfold Client.methodSignatureOf, signatureText.
  change (length (Client.MethodArgs web3Url))
    with (0 + length (Client.MethodArgs web3Url))%nat.
  rewrite signatureLoop_concat. now rewrite !append_assoc.
Qed.

(** The two shapes of a run of [FetchContractReturn] that gets past the
    three-way branch on the call mode. *)
Lemma FetchContractReturn_run (cfg : Config Z) (web3Url : Client.Web3URL)
    (calldata : bytes) (err0 : option error) :
  Client.deduceCalldata web3Url = inr (calldata, err0) ->
  let rpc := Client.rpcOf cfg (Client.ChainId web3Url) in
  let msg := Client.callMessageFor web3Url calldata in
  Client.FetchContractReturn cfg web3Url
  = match Dial rpc with
    | Some e => mkEff [EvDial rpc]
                      (Returns ([], Some (ErrWeb3 (mkWeb3Error StatusBadRequest e))))
    | None =>
        mkEff [EvDial rpc; EvCall rpc msg; EvClose rpc]
          (Returns
             (match CallContract rpc msg with
              | (bs, Some e) => (bs, Some (ErrWeb3 (mkWeb3Error StatusNotFound e)))
              | (bs, None) =>
                  if (length bs =? 0)%nat
                  then (bs, Some (ErrWeb3 (mkWeb3Error StatusNotFound Client.no_data_message)))
                  else (bs, None)
              end))
    end.
Proof.
  intros Hd rpc msg. unfold Client.FetchContractReturn. rewrite Hd.
  fold rpc. fold msg. destruct (Dial rpc) as [e|]; [reflexivity|].
  cbn. destruct (CallContract rpc msg) as [bs [e|]]; [reflexivity|].
  destruct (length bs =? 0)%nat; reflexivity.
Qed.

Lemma FetchContractReturn_early (cfg : Config Z) (web3Url : Client.Web3URL) (err : error) :
  Client.deduceCalldata web3Url = inl err ->
  Client.FetchContractReturn cfg web3Url = mkEff [] (Returns ([], Some err)).
Proof. intros Hd. unfold Client.FetchContractReturn. now rewrite Hd. Qed.

(** Every call that [FetchContractReturn] makes carries the calldata that
    [deduceCalldata] produced. *)
Lemma FetchContractReturn_call (cfg : Config Z) (web3Url : Client.Web3URL)
    (rpc : string) (msg : CallMsg) :
  EvCall rpc msg ∈ trace (Client.FetchContractReturn cfg web3Url) ->
  exists calldata err0,
    Client.deduceCalldata web3Url = inr (calldata, err0) /\
    rpc = Client.rpcOf cfg (Client.ChainId web3Url) /\
    msg = Client.callMessageFor web3Url calldata /\
    Dial rpc = None.
Proof.
  destruct (Client.deduceCalldata web3Url) as [err|[calldata err0]] eqn:Hd.
  - rewrite (FetchContractReturn_early _ _ _ Hd). cbn. intros Hin.
    apply elem_of_nil in Hin. contradiction.
  - rewrite (FetchContractReturn_run cfg _ _ _ Hd).
    destruct (Dial _) as [e|] eqn:Hdial; cbn; intros Hin.
    + apply list_elem_of_singleton in Hin. discriminate.
    + apply elem_of_cons in Hin as [Hin|Hin]; [discriminate|].
      apply elem_of_cons in Hin as [Hin|Hin].
      * injection Hin as -> ->. eauto 10.
      * apply list_elem_of_singleton in Hin. discriminate.
Qed.

(** C2. When the call mode is [method], every call that
    [FetchContractReturn] sends carries, as its data, the first 4 bytes of
    keccak256 of the signature text [name(type1,type2,...)] followed by the
    ABI packing of the argument values; and such a call is sent whenever the
    packing succeeds and the endpoint can be dialled. *)
Theorem method_calldata (cfg : Config Z) (web3Url : Client.Web3URL) :
  Client.ContractCallMode web3Url = Client.ContractCallModeMethod ->
  let selector := selectorOf (Client.MethodName web3Url)
                             (map type_String (Client.MethodArgs web3Url)) in
  let rpc := Client.rpcOf cfg (Client.ChainId web3Url) in
  (forall r msg,
      EvCall r msg ∈ trace (Client.FetchContractReturn cfg web3Url) ->
      exists packed,
        Pack (Client.MethodArgs web3Url) (Client.MethodArgValues web3Url) = Ok packed /\
        Data msg = selector ++ packed) /\
  (forall packed,
      Pack (Client.MethodArgs web3Url) (Client.MethodArgValues web3Url) = Ok packed ->
      Dial rpc = None ->
      calls (Client.FetchContractReturn cfg web3Url)
      = [EvCall rpc (Client.callMessageFor web3Url (selector ++ packed))]).
Proof.
  intros Hmode selector rpc.
  assert (forall packed,
             Pack (Client.MethodArgs web3Url) (Client.MethodArgValues web3Url) = Ok packed ->
             Client.deduceCalldata web3Url = inr (selector ++ packed, None)) as Hok.
  { intros packed Hp. unfold Client.deduceCalldata. rewrite Hmode, String.eqb_refl, Hp.
    unfold selector, selectorOf. now rewrite methodSignatureOf_text. }
  split.
  - intros r msg Hin.
    apply FetchContractReturn_call in Hin as (calldata & err0 & Hd & _ & -> & _).
    destruct (Pack _ _) as [packed|e] eqn:Hp.
    + exists packed. split; [reflexivity|].
      rewrite (Hok packed eq_refl) in Hd. now injection Hd as <- _.
    + unfold Client.deduceCalldata in Hd.
      rewrite Hmode, String.eqb_refl, Hp in Hd. discriminate.
  - intros packed Hp Hdial. unfold calls.
    rewrite (FetchContractReturn_run cfg _ _ _ (Hok packed Hp)).
    fold rpc. rewrite Hdial. reflexivity.
Qed.

End Calldata.

(** ** The outcomes of [FetchContractReturn] *)

Section FetchOutcomes.
Context {hasher : Hasher} {common : Common} {caller : EthCaller}
        {codec : AbiCodec} {helpers : Helpers Z}.

Example no_data_message_begins :
  HasPrefix Client.no_data_message "The contract returned no data (" = true.
Proof. reflexivity. Qed.

(** C4. Whenever a contract call made by [FetchContractReturn] succeeds at
    the RPC level and returns zero bytes, the function returns those bytes
    with a [Web3Error] of HTTP code 404 whose message is the explanation of
    an empty return. *)
Theorem empty_return_is_404
    (cfg : Config Z) (web3Url : Client.Web3URL) (r : string) (msg : CallMsg) (bs : bytes) :
  EvCall r msg ∈ trace (Client.FetchContractReturn cfg web3Url) ->
  CallContract r msg = (bs, None) ->
  length bs = 0%nat ->
  out (Client.FetchContractReturn cfg web3Url)
  = Returns (bs, Some (ErrWeb3 (mkWeb3Error 404 Client.no_data_message))).
Proof.
  intros Hin Hcall Hlen.
  apply FetchContractReturn_call in Hin as (calldata & err0 & Hd & -> & -> & Hdial).
  rewrite (FetchContractReturn_run cfg _ _ _ Hd), Hdial. cbn.
  rewrite Hcall, Hlen. reflexivity.
Qed.

Lemma deduceCalldata_other_mode (web3Url : Client.Web3URL) :
  Client.ContractCallMode web3Url <> Client.ContractCallModeMethod ->
  Client.ContractCallMode web3Url <> Client.ContractCallModeCalldata ->
  Client.deduceCalldata web3Url
  = inr ([], Some (errors_New "ContractCallMode is empty")).
Proof.
  intros Hm Hc. unfold Client.deduceCalldata.
  apply String.eqb_neq in Hm, Hc. now rewrite Hm, Hc.
Qed.

(** C6, as the code has it.  With a call mode that is neither [method] nor
    [calldata] the error value "ContractCallMode is empty" is created and
    then overwritten by the error of [ethclient.Dial]: the function goes on,
    calls the contract with empty calldata once the endpoint is dialled, and
    every error it reports is a [Web3Error]. *)
Theorem empty_call_mode_is_not_reported (cfg : Config Z) (web3Url : Client.Web3URL) :
  Client.ContractCallMode web3Url <> Client.ContractCallModeMethod ->
  Client.ContractCallMode web3Url <> Client.ContractCallModeCalldata ->
  let rpc := Client.rpcOf cfg (Client.ChainId web3Url) in
  let msg := Client.callMessageFor web3Url [] in
  (Dial rpc = None ->
   calls (Client.FetchContractReturn cfg web3Url) = [EvCall rpc msg]) /\
  (forall bs, Dial rpc = None -> CallContract rpc msg = (bs, None) -> bs <> [] ->
              out (Client.FetchContractReturn cfg web3Url) = Returns (bs, None)) /\
  (forall bs e, out (Client.FetchContractReturn cfg web3Url) = Returns (bs, Some e) ->
                exists w, e = ErrWeb3 w).
Proof.
  intros Hm Hc rpc msg.
  pose proof (FetchContractReturn_run cfg _ _ _ (deduceCalldata_other_mode _ Hm Hc)) as Hrun.
  cbv zeta in Hrun. fold rpc msg in Hrun. rewrite Hrun. clear Hrun.
  repeat split.
  - intros ->. reflexivity.
  - intros bs -> -> Hne. cbn. destruct bs; [contradiction|reflexivity].
  - intros bs e. destruct (Dial rpc) as [d|]; cbn.
    + intros E. injection E as _ <-. eauto.
    + destruct (CallContract rpc msg) as [bs' [e'|]].
      * intros E. injection E as _ <-. eauto.
      * destruct (length bs' =? 0)%nat; intros E; [|discriminate].
        injection E as _ <-. eauto.
Qed.

(** C7, as the code has it.  When [FetchContractReturn] gets as far as
    dialling and the dial fails, it makes no call and returns a [Web3Error]
    whose HTTP code is 400 and whose message is that of the dial error. *)
Theorem fetch_dial_failure_is_400
    (cfg : Config Z) (web3Url : Client.Web3URL) (calldata : bytes)
    (err0 : option error) (e : string) :
  Client.deduceCalldata web3Url = inr (calldata, err0) ->
  Dial (Client.rpcOf cfg (Client.ChainId web3Url)) = Some e ->
  out (Client.FetchContractReturn cfg web3Url)
  = Returns ([], Some (ErrWeb3 (mkWeb3Error 400 e))) /\
  calls (Client.FetchContractReturn cfg web3Url) = [].
Proof.
  intros Hd Hdial. unfold calls.
  rewrite (FetchContractReturn_run cfg _ _ _ Hd), Hdial. split; reflexivity.
Qed.

(** C10. With [ContractReturnProcessing] equal to [erc5219],
    [ProcessContractReturn] returns without an error, whatever the contract
    returned; the record it returns has a nil [Output], the HTTP code 0 and
    an empty header map. *)
Theorem erc5219_is_passed_over (web3Url : Client.Web3URL) (contractReturn : bytes) :
  Client.ContractReturnProcessing web3Url = Client.ContractReturnProcessingErc5219 ->
  exists fetched,
    Client.ProcessContractReturn web3Url contractReturn = Returns (fetched, None) /\
    Client.Output fetched = None /\
    Client.HttpCode fetched = 0%Z /\
    Client.HttpHeaders fetched = ∅.
Proof.
  intros Hmode. exists Client.emptyFetched.
  unfold Client.ProcessContractReturn. rewrite Hmode. cbn. repeat split.
Qed.

End FetchOutcomes.

(** ** Normalization and name hashes *)

Section Names.
Context {normalizer : Normalizer} {hasher : Hasher}.

Lemma HasPrefix_dot_cons (s : string) : HasPrefix ("." +:+ s) "." = true.
Proof. destruct s; reflexivity. Qed.

(** A leading dot of the input is always there in the output of a
    normalization that succeeds. *)
Lemma Normalize_keeps_dot (x output : string) :
  Ens.Normalize x = (output, None) ->
  HasPrefix x "." = true -> HasPrefix output "." = true.
Proof.
  unfold Ens.Normalize. destruct (ToUnicode x) as [o [e|]]; [discriminate|].
  intros E Hx. rewrite Hx in E. cbn in E.
  destruct (HasPrefix o ".") eqn:Ho; cbn in E; injection E as <-.
  - exact Ho.
  - apply HasPrefix_dot_cons.
Qed.

(** C9, as amended.  The output of a normalization that succeeds begins
    with "." whenever the input does, and it begins with "." only when the
    input does or when the output of the profile itself does: [Normalize]
    restores a leading dot and takes none away. *)
Theorem Normalize_leading_dot (x output : string) :
  Ens.Normalize x = (output, None) ->
  (HasPrefix output "." = true
   <-> HasPrefix x "." = true \/ HasPrefix (fst (ToUnicode x)) "." = true).
Proof.
  intros E. split.
  - intros Hout. destruct (HasPrefix x ".") eqn:Hx; [now left|]. right.
    unfold Ens.Normalize in E.
    destruct (ToUnicode x) as [o [e|]]; [discriminate|].
    rewrite Hx in E. cbn [andb] in E. injection E as <-. exact Hout.
  - intros [Hx|Ho]; [now apply (Normalize_keeps_dot x)|].
    unfold Ens.Normalize in E.
    destruct (ToUnicode x) as [o [e|]]; [discriminate|]. cbn [fst] in Ho.
    rewrite Ho in E. cbn [negb] in E. rewrite andb_false_r in E.
    injection E as <-. exact Ho.
Qed.

(** C9, as stated, fails: a name that begins with the ideographic full stop
    U+3002 does not begin with ".", the profile maps the full stop to the
    dot, and the output of [Normalize] begins with ".". *)
Lemma Normalize_leading_dot_counterexample :
  Ens.Normalize (normalizer := Mock.normalizer) Mock.fullStopName = (".eth", None)
  /\ ~ (HasPrefix (fst (Ens.Normalize (normalizer := Mock.normalizer)
                                      Mock.fullStopName)) "." = true
        <-> HasPrefix Mock.fullStopName "." = true).
Proof.
  split; [reflexivity|]. intros [Hto _].
  specialize (Hto eq_refl). discriminate Hto.
Qed.

Lemma nameHashLoop_app (xs ys : list string) (h : bytes) :
  Ens.nameHashLoop (xs ++ ys) h = Ens.nameHashLoop ys (fst (Ens.nameHashLoop xs h)).
Proof.
  revert h. induction xs as [|x xs IH]; intros h; [reflexivity|].
  cbn. apply IH.
Qed.

Lemma nameHashLoop_rev (parts : list string) :
  Ens.nameHashLoop (rev parts) zero_hash = (namehashRec parts, None).
Proof.
  induction parts as [|p parts IH]; [reflexivity|].
  cbn [rev]. rewrite nameHashLoop_app, IH. reflexivity.
Qed.

Lemma Split_nonempty (s : string) (sep : ascii) : Split s sep <> [].
Proof.
  destruct s as [|c s]; cbn; [discriminate|].
  destruct (Ascii.eqb c sep); [discriminate|].
  destruct (Split s sep); discriminate.
Qed.

(** A first label without a dot is the first piece of the split. *)
Lemma Split_first_label (la rest : string) :
  Split la "." = [la] ->
  Split (la +:+ "." +:+ rest) "." = la :: Split rest ".".
Proof.
  induction la as [|c la IH]; intros Hla; [reflexivity|].
  change (String c la +:+ "." +:+ rest) with (String c (la +:+ "." +:+ rest)).
  cbn [Split] in *. destruct (Ascii.eqb c ".").
  - discriminate.
  - destruct (Split la ".") as [|p ps] eqn:Hs; [now apply Split_nonempty in Hs|].
    injection Hla as -> ->. now rewrite IH.
Qed.

Lemma dotted_nonempty (a rest : string) : a +:+ "." +:+ rest <> "".
Proof. destruct a; discriminate. Qed.

Lemma NameHash_of_normalized (name n : string) :
  name <> "" -> Ens.Normalize name = (n, None) ->
  Ens.NameHash name = (namehashRec (Split n "."), None).
Proof.
  intros Hne Hn. unfold Ens.NameHash.
  apply String.eqb_neq in Hne. rewrite Hne, Hn. apply nameHashLoop_rev.
Qed.

(** C3. [NameHash] of the empty string is 32 zero bytes; for every other
    name whose normalization succeeds, [NameHash] is the recursion that
    starts from 32 zero bytes and, over the labels of the normalized name
    from the rightmost to the leftmost, replaces the hash with
    keccak256(previous hash || keccak256(label)); in particular, for a name
    [a.rest] that is normalized label by label,
    namehash(a.rest) = keccak256(namehash(rest) || keccak256(normalize(a))). *)
Theorem NameHash_recursion :
  Ens.NameHash "" = (zero_hash, None) /\
  length zero_hash = 32%nat /\
  (forall name n,
      name <> "" -> Ens.Normalize name = (n, None) ->
      Ens.NameHash name = (namehashRec (Split n "."), None)) /\
  (forall a rest na nrest,
      rest <> "" ->
      Ens.Normalize a = (na, None) ->
      Ens.Normalize rest = (nrest, None) ->
      Ens.Normalize (a +:+ "." +:+ rest) = (na +:+ "." +:+ nrest, None) ->
      Split na "." = [na] ->
      fst (Ens.NameHash (a +:+ "." +:+ rest))
      = Keccak256 (fst (Ens.NameHash rest) ++ Keccak256 (bytes_of_string na))).
Proof.
  split; [reflexivity|]. split; [reflexivity|]. split.
  - apply NameHash_of_normalized.
  - intros a rest na nrest Hrest Ha Hr Hall Hna.
    rewrite (NameHash_of_normalized rest nrest Hrest Hr).
    rewrite (NameHash_of_normalized _ _ (dotted_nonempty a rest) Hall).
    rewrite (Split_first_label _ _ Hna). reflexivity.
Qed.

End Names.

(** ** Chain-specific addresses (EIP-3770) *)

Section ChainSpecific.
Context {common : Common}.

Lemma length_two (ss : list string) :
  (length ss =? 2)%nat = true -> ss = [nth 0 ss ""; nth 1 ss ""].
Proof.
  destruct ss as [|a [|b [|c ss]]]; cbn; intros E; try discriminate. reflexivity.
Qed.

(** C8. [parseChainSpecificAddress] on every text: a literal hex address
    comes back with no chain (the empty chain identifier); a text that is
    not one and that splits on ":" into exactly two parts, the first of
    which, lower-cased, is a key of [Name2Chain] and the second of which is
    a hex address, comes back as that address on the chain the key maps to;
    every other text yields a [Web3Error] with HTTP code 400. *)
Theorem parseChainSpecificAddress_cases (cfg : Config string) (addr : string) :
  (IsHexAddress addr = true ->
   Ens.parseChainSpecificAddress cfg addr = (HexToAddress addr, "", None)) /\
  (forall chainName hexPart chainId,
      IsHexAddress addr = false ->
      Split addr ":" = [chainName; hexPart] ->
      Name2Chain cfg !! ToLower chainName = Some chainId ->
      IsHexAddress hexPart = true ->
      Ens.parseChainSpecificAddress cfg addr = (HexToAddress hexPart, chainId, None)) /\
  (IsHexAddress addr = false ->
   ~ (exists chainName hexPart chainId,
         Split addr ":" = [chainName; hexPart] /\
         Name2Chain cfg !! ToLower chainName = Some chainId /\
         IsHexAddress hexPart = true) ->
   exists msg,
     Ens.parseChainSpecificAddress cfg addr
     = (zero_address, "", Some (ErrWeb3 (mkWeb3Error 400 msg)))).
Proof.
  unfold Ens.parseChainSpecificAddress. repeat split.
  - intros ->. reflexivity.
  - intros chainName hexPart chainId -> -> Hchain Hhex. cbn.
    rewrite Hchain, Hhex. reflexivity.
  - intros -> Hnot.
    destruct (length (Split addr ":") =? 2)%nat eqn:Hlen; cbn [negb]; [|eauto].
    apply length_two in Hlen.
    destruct (Name2Chain cfg !! ToLower (nth 0 (Split addr ":") "")) as [chainId|] eqn:Hc;
      [|eauto].
    destruct (IsHexAddress (nth 1 (Split addr ":") "")) eqn:Hhex; cbn [negb]; [|eauto].
    exfalso. apply Hnot. eauto 10.
Qed.

End ChainSpecific.

(** ** The resolver lookups *)

Lemma zero_hash_hex : Bytes2Hex zero_hash = Ens.EmptyAddress.
Proof. reflexivity. Qed.

Section Resolver.
Context {normalizer : Normalizer} {hasher : Hasher} {common : Common}
        {caller : EthCaller} {codec : AbiCodec} {helpers : Helpers string}.

(** An RPC failure of the lookup is reported as a 404 that carries the
    message of the failure, and no address. *)
Lemma resolve_rpc_failure_is_404
    (cfg : Config string) (ethClient nameServiceChain : string) (resolver : Address)
    (args : list string) (msg : CallMsg) (bs : bytes) (e : string) :
  parseArguments nameServiceChain resolver args = (msg, None) ->
  CallContract ethClient msg = (bs, Some e) ->
  out (Ens.resolve cfg ethClient nameServiceChain resolver args)
  = Returns (zero_address, "", Some (ErrWeb3 (mkWeb3Error 404 e))).
Proof.
  intros Hargs Hcall. unfold Ens.resolve. rewrite Hargs. cbn. rewrite Hcall.
  reflexivity.
Qed.

(** C5, as the code has it.  When the lookup succeeds at the RPC level and
    returns the all-zero 32 bytes, [resolve] enters the branch that builds
    the 404 and evaluates [err.Error()] on the nil error: it panics and
    returns nothing. *)
Theorem resolve_zero_address_panics
    (cfg : Config string) (ethClient nameServiceChain : string) (resolver : Address)
    (args : list string) (msg : CallMsg) :
  parseArguments nameServiceChain resolver args = (msg, None) ->
  CallContract ethClient msg = (zero_hash, None) ->
  out (Ens.resolve cfg ethClient nameServiceChain resolver args)
  = Panics nil_dereference.
Proof.
  intros Hargs Hcall. unfold Ens.resolve. rewrite Hargs. cbn. rewrite Hcall.
  reflexivity.
Qed.

(** The two name-service entry points report a failed dial as a 500. *)
Lemma getAddressFromNameService_dial_failure
    (cfg : Config string) (nameServiceChain nameWithSuffix : string)
    (nsInfo : NameServiceInfo) (rpc e : string) :
  IsHexAddress nameWithSuffix = false ->
  Ens.getConfigs cfg nameServiceChain nameWithSuffix = (nsInfo, rpc, None) ->
  Dial rpc = Some e ->
  out (Ens.getAddressFromNameService cfg nameServiceChain nameWithSuffix)
  = Returns (zero_address, "",
             Some (ErrWeb3 (mkWeb3Error 500 "internal server error"))).
Proof.
  intros Hhex Hcfg Hdial. unfold Ens.getAddressFromNameService.
  rewrite Hhex, Hcfg. cbn. rewrite Hdial. reflexivity.
Qed.

Lemma getAddressFromNameServiceWebHandler_dial_failure
    (cfg : Config string) (nameServiceChain nameWithSuffix : string)
    (nsInfo : NameServiceInfo) (rpc e : string) :
  IsHexAddress nameWithSuffix = false ->
  Ens.getConfigs cfg nameServiceChain nameWithSuffix = (nsInfo, rpc, None) ->
  Dial rpc = Some e ->
  out (Ens.getAddressFromNameServiceWebHandler cfg nameServiceChain nameWithSuffix)
  = Returns (zero_address, "",
             Some (ErrWeb3 (mkWeb3Error 500 "internal server error"))).
Proof.
  intros Hhex Hcfg Hdial. unfold Ens.getAddressFromNameServiceWebHandler.
  rewrite Hhex, Hcfg. cbn. rewrite Hdial. reflexivity.
Qed.

End Resolver.

(** ** The functions on the test doubles *)

Example methodSignatureOf_balanceOf :
  Client.methodSignatureOf Mock.methodUrl = "balanceOf(address,uint256)".
Proof. reflexivity. Qed.

Example Normalize_leading_dot_kept :
  Ens.Normalize (normalizer := Mock.normalizer) ".A.b" = (".a.b", None).
Proof. reflexivity. Qed.

Example Normalize_full_stop_name :
  Ens.Normalize (normalizer := Mock.normalizer) Mock.fullStopName = (".eth", None).
Proof. reflexivity. Qed.

Example parseChainSpecificAddress_three_parts :
  Ens.parseChainSpecificAddress (common := Mock.common) Mock.ensConfig "a:b:c"
  = (zero_address, "",
     Some (ErrWeb3 (mkWeb3Error 400 "invalid contract address from name service: a:b:c"))).
Proof. reflexivity. Qed.

Example parseChainSpecificAddress_unknown_chain :
  Ens.parseChainSpecificAddress (common := Mock.common) Mock.ensConfig
    "xyz:0x0000000000000000000000000000000000000002"
  = (zero_address, "",
     Some (ErrWeb3 (mkWeb3Error 400
       "unsupported chain short name from name service: xyz:0x0000000000000000000000000000000000000002"))).
Proof. reflexivity. Qed.

(** A probe answered with 31 bytes, and one answered with an error. *)
Example checkResolveMode_short_reply :
  out (Client.checkResolveMode
         (caller := Mock.caller None (fun _ => (firstn 31 manual_return, None)))
         (helpers := Mock.helpers Z (Mock.caller None (fun _ => ([], None))))
         Mock.clientConfig Mock.methodUrl)
  = Returns Client.ResolveModeAuto.
Proof. reflexivity. Qed.

Example checkResolveMode_rpc_error :
  out (Client.checkResolveMode
         (caller := Mock.caller None (fun _ => ([], Some "execution reverted")))
         (helpers := Mock.helpers Z (Mock.caller None (fun _ => ([], None))))
         Mock.clientConfig Mock.methodUrl)
  = Returns Client.ResolveModeAuto.
Proof. reflexivity. Qed.

(** A name of the w3ns service whose [webHandler] answers the address
    0x...04: one dial, the resolver lookup, the [webHandler] lookup, and
    the address with no chain. *)
Example webHandler_lookup :
  let reply := repeat zero_byte 31 ++ [x04] in
  let run :=
    Ens.getAddressFromNameServiceWebHandler
      (normalizer := Mock.normalizer) (hasher := Mock.hasher) (common := Mock.common)
      (caller := Mock.caller None (fun _ => (reply, None)))
      (helpers := Mock.helpers string (Mock.caller None (fun _ => (reply, None))))
      Mock.ensConfig "1" "example.w3q" in
  out run = Returns (repeat zero_byte 19 ++ [x04], "", None)
  /\ length (calls run) = 2%nat.
Proof. split; reflexivity. Qed.

(** A name of the simple service whose registry answers the zero
    address. *)
Example simple_lookup_zero_address :
  out (Ens.getAddressFromNameService
         (normalizer := Mock.normalizer) (hasher := Mock.hasher) (common := Mock.common)
         (caller := Mock.caller None (fun _ => (zero_hash, None)))
         (helpers := Mock.helpers string (Mock.caller None (fun _ => (zero_hash, None))))
         Mock.ensConfig "1" "foo.sim")
  = Panics nil_dereference.
Proof. reflexivity. Qed.

(** * Runs on the test doubles

    Each statement above that has premises is applied here to a concrete
    input on which the premises hold by computation. *)

(** The probe of a contract that answers "manual". *)
Lemma checkResolveMode_selects_witness :
  out (Client.checkResolveMode
         (caller := Mock.caller None (fun _ => (manual_return, None)))
         (helpers := Mock.helpers Z (Mock.caller None (fun _ => (manual_return, None))))
         Mock.clientConfig Mock.methodUrl)
  = Returns Client.ResolveModeManual.
Proof.
  pose proof (checkResolveMode_selects
                (caller := Mock.caller None (fun _ => (manual_return, None)))
                (helpers := Mock.helpers Z (Mock.caller None (fun _ => (manual_return, None))))
                Mock.clientConfig Mock.methodUrl _ eq_refl eq_refl) as [Hm _].
  apply Hm. reflexivity.
Defined.

(** The calldata of [balanceOf(address,uint256)] on the test codec. *)
Lemma method_calldata_witness :
  calls (Client.FetchContractReturn
           (hasher := Mock.hasher) (common := Mock.common)
           (caller := Mock.caller None (fun _ => ([x2a], None)))
           Mock.clientConfig Mock.methodUrl)
  = [EvCall "https://rpc.example"
       (Client.callMessageFor (common := Mock.common) Mock.methodUrl
          (selectorOf (hasher := Mock.hasher) "balanceOf" ["address"; "uint256"]
           ++ [x01; x02]))].
Proof.
  pose proof (method_calldata
                (hasher := Mock.hasher) (common := Mock.common)
                (caller := Mock.caller None (fun _ => ([x2a], None)))
                Mock.clientConfig Mock.methodUrl eq_refl) as [_ Hsent].
  apply (Hsent [x01; x02]); reflexivity.
Defined.

(** The name hash of [Foo.eth] with the test normalizer and digest. *)
Lemma NameHash_recursion_witness :
  fst (Ens.NameHash (normalizer := Mock.normalizer) (hasher := Mock.hasher) "Foo.eth")
  = Keccak256 (Hasher := Mock.hasher)
      (fst (Ens.NameHash (normalizer := Mock.normalizer) (hasher := Mock.hasher) "eth")
       ++ Keccak256 (Hasher := Mock.hasher) (bytes_of_string "foo")).
Proof.
  pose proof (NameHash_recursion (normalizer := Mock.normalizer) (hasher := Mock.hasher))
    as (_ & _ & _ & Hstep).
  apply (Hstep "Foo" "eth" "foo" "eth"); [discriminate | reflexivity ..].
Defined.

(** A call that returns no data. *)
Lemma empty_return_is_404_witness :
  out (Client.FetchContractReturn
         (hasher := Mock.hasher) (common := Mock.common)
         (caller := Mock.caller None (fun _ => ([], None)))
         Mock.clientConfig Mock.calldataUrl)
  = Returns ([], Some (ErrWeb3 (mkWeb3Error 404 Client.no_data_message))).
Proof.
  apply (empty_return_is_404
           (hasher := Mock.hasher) (common := Mock.common)
           (caller := Mock.caller None (fun _ => ([], None)))
           Mock.clientConfig Mock.calldataUrl "https://rpc.example"
           (Client.callMessageFor (common := Mock.common) Mock.calldataUrl [xde; xad]) []).
  - cbn. apply list_elem_of_In. cbn. right; left; reflexivity.
  - reflexivity.
  - reflexivity.
Defined.

(** A resolver that answers the zero address. *)
Lemma resolve_zero_address_panics_witness :
  out (Ens.resolve
         (common := Mock.common)
         (caller := Mock.caller None (fun _ => (zero_hash, None)))
         (helpers := Mock.helpers string (Mock.caller None (fun _ => (zero_hash, None))))
         Mock.ensConfig "https://rpc.example" "1" Mock.addr1 ["addr"; "bytes32!0x00"])
  = Panics nil_dereference.
Proof.
  apply (resolve_zero_address_panics
           (common := Mock.common)
           (caller := Mock.caller None (fun _ => (zero_hash, None)))
           (helpers := Mock.helpers string (Mock.caller None (fun _ => (zero_hash, None))))
           Mock.ensConfig "https://rpc.example" "1" Mock.addr1 ["addr"; "bytes32!0x00"] _
           eq_refl eq_refl).
Defined.

(** A URL record without call mode, on a contract that answers one byte:
    the call is made and its answer is returned without any error. *)
Lemma empty_call_mode_is_not_reported_witness :
  out (Client.FetchContractReturn
         (hasher := Mock.hasher) (common := Mock.common)
         (caller := Mock.caller None (fun _ => ([x2a], None)))
         Mock.clientConfig Mock.emptyModeUrl)
  = Returns ([x2a], None)
  /\ calls (Client.FetchContractReturn
              (hasher := Mock.hasher) (common := Mock.common)
              (caller := Mock.caller None (fun _ => ([x2a], None)))
              Mock.clientConfig Mock.emptyModeUrl)
     = [EvCall "https://rpc.example"
          (Client.callMessageFor (common := Mock.common) Mock.emptyModeUrl [])].
Proof.
  pose proof (empty_call_mode_is_not_reported
                (hasher := Mock.hasher) (common := Mock.common)
                (caller := Mock.caller None (fun _ => ([x2a], None)))
                Mock.clientConfig Mock.emptyModeUrl
                ltac:(discriminate) ltac:(discriminate)) as (Hcalls & Hout & _).
  split.
  - apply Hout; [reflexivity | reflexivity | discriminate].
  - apply Hcalls. reflexivity.
Defined.

(** An endpoint that cannot be dialled. *)
Lemma fetch_dial_failure_is_400_witness :
  out (Client.FetchContractReturn
         (hasher := Mock.hasher) (common := Mock.common)
         (caller := Mock.caller (Some "dial tcp: connection refused") (fun _ => ([], None)))
         Mock.clientConfig Mock.calldataUrl)
  = Returns ([], Some (ErrWeb3 (mkWeb3Error 400 "dial tcp: connection refused"))).
Proof.
  apply (fetch_dial_failure_is_400
           (hasher := Mock.hasher) (common := Mock.common)
           (caller := Mock.caller (Some "dial tcp: connection refused") (fun _ => ([], None)))
           Mock.clientConfig Mock.calldataUrl [xde; xad] None
           "dial tcp: connection refused" eq_refl eq_refl).
Defined.

(** [gno:0x...02] with [gno] mapped to chain 100. *)
Lemma parseChainSpecificAddress_cases_witness :
  Ens.parseChainSpecificAddress (common := Mock.common) Mock.ensConfig
    "GNO:0x0000000000000000000000000000000000000002"
  = (repeat zero_byte 19 ++ [x02], "100", None).
Proof.
  pose proof (parseChainSpecificAddress_cases (common := Mock.common) Mock.ensConfig
                "GNO:0x0000000000000000000000000000000000000002") as (_ & Hpair & _).
  apply (Hpair "GNO" "0x0000000000000000000000000000000000000002" "100");
    reflexivity.
Defined.

(** A name with a leading dot, and one with a leading full stop. *)
Lemma Normalize_leading_dot_witness :
  (HasPrefix ".eth" "." = true
   <-> HasPrefix ".Eth" "." = true
       \/ HasPrefix (fst (ToUnicode (Normalizer := Mock.normalizer) ".Eth")) "." = true)
  /\ (HasPrefix ".eth" "." = true
      <-> HasPrefix Mock.fullStopName "." = true
          \/ HasPrefix (fst (ToUnicode (Normalizer := Mock.normalizer)
                                       Mock.fullStopName)) "." = true).
Proof.
  split.
  - apply (Normalize_leading_dot (normalizer := Mock.normalizer) ".Eth" ".eth").
    reflexivity.
  - apply (Normalize_leading_dot (normalizer := Mock.normalizer)
                                 Mock.fullStopName ".eth").
    reflexivity.
Defined.

(** A return to be processed as [erc5219]. *)
Lemma erc5219_is_passed_over_witness :
  exists fetched,
    Client.ProcessContractReturn (helpers := Mock.helpers Z (Mock.caller None (fun _ => ([], None))))
      Mock.erc5219Url [x01; x02]
    = Returns (fetched, None)
    /\ Client.Output fetched = None
    /\ Client.HttpCode fetched = 0%Z
    /\ Client.HttpHeaders fetched = ∅.
Proof.
  apply (erc5219_is_passed_over
           (helpers := Mock.helpers Z (Mock.caller None (fun _ => ([], None))))
           Mock.erc5219Url [x01; x02] eq_refl).
Defined.

(** * Further properties *)

(** ** Sequencing of effects *)

Lemma out_bind {A B : Type} (m : Eff A) (f : A -> Eff B) :
  out (m ≫= f)
  = match out m with Returns a => out (f a) | Panics r => Panics r end.
Proof. unfold mbind, Eff_bind. destruct (out m); reflexivity. Qed.

Lemma trace_bind {A B : Type} (m : Eff A) (f : A -> Eff B) :
  trace (m ≫= f)
  = trace m ++ match out m with Returns a => trace (f a) | Panics _ => [] end.
Proof.
  unfold mbind, Eff_bind. destruct (out m); cbn; [reflexivity|].
  now rewrite app_nil_r.
Qed.

Lemma out_mret {A : Type} (a : A) : out (mret a : Eff A) = Returns a.
Proof. reflexivity. Qed.

Lemma trace_mret {A : Type} (a : A) : trace (mret a : Eff A) = [].
Proof. reflexivity. Qed.

Lemma out_panic {A : Type} (r : string) : out (panic r : Eff A) = Panics r.
Proof. reflexivity. Qed.

Lemma trace_panic {A : Type} (r : string) : trace (panic r : Eff A) = [].
Proof. reflexivity. Qed.

Lemma out_callContract {caller : EthCaller} (rpc : string) (msg : CallMsg) :
  out (Ens.callContract rpc msg) = Returns (CallContract rpc msg).
Proof. reflexivity. Qed.

Lemma trace_callContract {caller : EthCaller} (rpc : string) (msg : CallMsg) :
  trace (Ens.callContract rpc msg) = [EvCall rpc msg].
Proof. reflexivity. Qed.

(** Rewriting with the laws above. *)
Ltac eff_simpl :=
  repeat first
    [ rewrite out_bind | rewrite trace_bind | rewrite out_mret | rewrite trace_mret
    | rewrite out_panic | rewrite trace_panic
    | rewrite out_callContract | rewrite trace_callContract ].

(** ** Results of the name resolution *)

Section ResolutionResults.
Context {normalizer : Normalizer} {hasher : Hasher} {common : Common}
        {caller : EthCaller} {codec : AbiCodec} {helpers : Helpers string}.

Lemma parseChainSpecificAddress_wellFormed (cfg : Config string) (addr : string) :
  wellFormedResolution cfg (Ens.parseChainSpecificAddress cfg addr).
Proof.
  unfold Ens.parseChainSpecificAddress, wellFormedResolution.
  repeat case_match; simplify_eq; try (split; reflexivity).
  - split; [eauto | now left].
  - split; [|right; eauto].
    match goal with H : negb (IsHexAddress ?h) = false |- _ =>
      exists h; split; [now apply negb_false_iff in H | reflexivity] end.
Qed.

Lemma resolve_wellFormed (cfg : Config string) (ethClient nameServiceChain : string)
    (resolver : Address) (args : list string) (r : Address * string * option error) :
  out (Ens.resolve cfg ethClient nameServiceChain resolver args) = Returns r ->
  wellFormedResolution cfg r.
Proof.
  unfold Ens.resolve.
  destruct (parseArguments _ _ _) as [msg [e|]]; eff_simpl.
  - intros [= <-]. now split.
  - destruct (CallContract ethClient msg) as [bs [e|]].
    + cbn [orb bool_decide]. rewrite bool_decide_eq_true_2 by discriminate.
      cbn [orb]. eff_simpl. intros [= <-]. now split.
    + rewrite bool_decide_eq_false_2 by (intros Hn; now apply Hn). cbn [orb].
      destruct (String.eqb (Bytes2Hex bs) Ens.EmptyAddress); eff_simpl; [intros [=]|].
      destruct (parseOutput bs "address") as [[res|e]|]; eff_simpl; [| |intros [=]].
      * destruct (Ens.first_string res); eff_simpl; [|intros [=]].
        intros [= <-]. apply parseChainSpecificAddress_wellFormed.
      * intros [= <-]. now split.
Qed.

Lemma webHandlerProbe_wellFormed (cfg : Config string) (rpc nameServiceChain : string)
    (nsInfo : NameServiceInfo) (resolver : Address) (node : string)
    (r : Address * string * option error) :
  out (Ens.webHandlerProbe cfg rpc nameServiceChain nsInfo resolver node) = Returns r ->
  wellFormedResolution cfg r.
Proof.
  unfold Ens.webHandlerProbe.
  destruct (if bool_decide (NSType nsInfo = Web3QNameService) then _ else _)
    as [args returnTp].
  destruct (parseArguments _ _ args) as [msg [e|]]; eff_simpl.
  - intros [= <-]. now split.
  - destruct (out (handleCallContract rpc msg)) as [[bs [we|]]|]; eff_simpl;
      [| |intros [=]].
    + intros [= <-]. now split.
    + destruct (negb _); [|apply resolve_wellFormed].
      destruct (parseOutput bs returnTp) as [[res|e]|]; eff_simpl;
        [|apply resolve_wellFormed|intros [=]].
      destruct (Ens.first_string res); eff_simpl; [|intros [=]].
      intros [= <-]. apply parseChainSpecificAddress_wellFormed.
Qed.

Lemma simpleLookup_wellFormed (cfg : Config string) (rpc nameServiceChain : string)
    (nsInfo : NameServiceInfo) (nameWithSuffix : string)
    (r : Address * string * option error) :
  out (Ens.simpleLookup cfg rpc nameServiceChain nsInfo nameWithSuffix) = Returns r ->
  wellFormedResolution cfg r.
Proof.
  unfold Ens.simpleLookup. destruct (Ens.strip_suffix4 _); eff_simpl;
    [apply resolve_wellFormed | intros [=]].
Qed.

(** X1. Whatever the transport and the contracts answer, a result of
    [getAddressFromNameService] or of [getAddressFromNameServiceWebHandler]
    never pairs an error with an address or a chain; and a result without
    error carries an address read from a text that is a hex address and a
    chain that is empty or one of the identifiers of [Name2Chain]. *)
Theorem name_resolution_wellFormed (cfg : Config string)
    (nameServiceChain nameWithSuffix : string) (r : Address * string * option error) :
  out (Ens.getAddressFromNameService cfg nameServiceChain nameWithSuffix) = Returns r
  \/ out (Ens.getAddressFromNameServiceWebHandler cfg nameServiceChain nameWithSuffix)
     = Returns r ->
  wellFormedResolution cfg r.
Proof.
  unfold Ens.getAddressFromNameService, Ens.getAddressFromNameServiceWebHandler.
  destruct (IsHexAddress nameWithSuffix) eqn:Hhex.
  { eff_simpl. intros [[= <-]|[= <-]]; (split; [eauto | now left]). }
  destruct (Ens.getConfigs _ _ _) as [[nsInfo rpc] [we|]].
  { eff_simpl. intros [[= <-]|[= <-]]; now split. }
  eff_simpl. cbn [emit out].
  destruct (Dial rpc).
  { eff_simpl. intros [[= <-]|[= <-]]; now split. }
  cbn [defer out].
  case_bool_decide; [|intros [Hr|Hr]; now apply simpleLookup_wellFormed in Hr].
  destruct (Ens.NameHash nameWithSuffix) as [nameHash ?]. eff_simpl.
  destruct (out (Ens.getResolver _ _ _ _ _)) as [[resolver [e|]]|]; eff_simpl.
  - intros [[= <-]|[= <-]]; now split.
  - intros [Hr|Hr];
      [now apply resolve_wellFormed in Hr | now apply webHandlerProbe_wellFormed in Hr].
  - intros [[=]|[=]].
Qed.

(** The events of the lookups are contract calls, as long as those of the
    helper [handleCallContract] are. *)
Lemma resolve_calls (cfg : Config string) (ethClient nameServiceChain : string)
    (resolver : Address) (args : list string) :
  Forall callEvent (trace (Ens.resolve cfg ethClient nameServiceChain resolver args)).
Proof.
  unfold Ens.resolve.
  destruct (parseArguments _ _ _) as [msg [e|]]; eff_simpl; [constructor|].
  apply Forall_app. split; [repeat constructor|].
  destruct (CallContract ethClient msg) as [bs err].
  destruct (bool_decide (err <> None) || _).
  - destruct err; constructor.
  - destruct (parseOutput bs "address") as [[res|e]|]; try constructor.
    destruct (Ens.first_string res); constructor.
Qed.

Section QuietHelper.
Hypothesis helper_calls :
  forall rpc msg, Forall callEvent (trace (handleCallContract rpc msg)).

Lemma getResolver_calls (ethClient : string) (nsAddr : Address)
    (node nameServiceChain nameWithSuffix : string) :
  Forall callEvent
         (trace (Ens.getResolver ethClient nsAddr node nameServiceChain nameWithSuffix)).
Proof.
  unfold Ens.getResolver.
  destruct (parseArguments _ _ _) as [msg [e|]]; eff_simpl; [constructor|].
  apply Forall_app. split; [apply helper_calls|].
  destruct (out (handleCallContract ethClient msg)) as [[bs [e|]]|]; try constructor.
  destruct (String.eqb _ _); constructor.
Qed.

Lemma webHandlerProbe_calls (cfg : Config string) (rpc nameServiceChain : string)
    (nsInfo : NameServiceInfo) (resolver : Address) (node : string) :
  Forall callEvent
         (trace (Ens.webHandlerProbe cfg rpc nameServiceChain nsInfo resolver node)).
Proof.
  unfold Ens.webHandlerProbe.
  destruct (if bool_decide (NSType nsInfo = Web3QNameService) then _ else _)
    as [args returnTp].
  destruct (parseArguments _ _ args) as [msg [e|]]; eff_simpl; [constructor|].
  apply Forall_app. split; [apply helper_calls|].
  destruct (out (handleCallContract rpc msg)) as [[bs [we|]]|]; try constructor.
  destruct (negb _); [|apply resolve_calls].
  destruct (parseOutput bs returnTp) as [[res|e]|];
    [|apply resolve_calls|constructor].
  destruct (Ens.first_string res); constructor.
Qed.

Lemma simpleLookup_calls (cfg : Config string) (rpc nameServiceChain : string)
    (nsInfo : NameServiceInfo) (nameWithSuffix : string) :
  Forall callEvent
         (trace (Ens.simpleLookup cfg rpc nameServiceChain nsInfo nameWithSuffix)).
Proof.
  unfold Ens.simpleLookup.
  destruct (Ens.strip_suffix4 _); [apply resolve_calls | constructor].
Qed.

Lemma dialledOnce_dials (rpc : string) (dialOk : bool) (t : list Event) :
  dialledOnce rpc dialOk t -> dials t = 1%nat.
Proof.
  unfold dialledOnce, dials. destruct dialOk; [|now intros ->].
  intros (body & -> & Hbody). cbn. f_equal.
  induction Hbody as [|e body He _ IH]; [reflexivity|].
  cbn. destruct e; [discriminate He | exact IH | discriminate He].
Qed.

(** X2. The two entry points touch the transport only for a name that is
    not a hex address and whose chain and suffix are configured.  Then,
    [handleCallContract] making contract calls only, they dial the endpoint
    of that chain exactly once: when the dial fails the dial is the whole
    trace, and otherwise the trace is that dial, contract calls only, and
    the close of the client at the end, on every path, a panic included. *)
Theorem name_resolution_trace (cfg : Config string)
    (nameServiceChain nameWithSuffix : string) :
  let plain := Ens.getAddressFromNameService cfg nameServiceChain nameWithSuffix in
  let web := Ens.getAddressFromNameServiceWebHandler cfg nameServiceChain nameWithSuffix in
  (IsHexAddress nameWithSuffix = true -> trace plain = [] /\ trace web = []) /\
  (snd (Ens.getConfigs cfg nameServiceChain nameWithSuffix) <> None ->
   trace plain = [] /\ trace web = []) /\
  (forall nsInfo rpc,
      IsHexAddress nameWithSuffix = false ->
      Ens.getConfigs cfg nameServiceChain nameWithSuffix = (nsInfo, rpc, None) ->
      dialledOnce rpc (bool_decide (Dial rpc = None)) (trace plain) /\
      dialledOnce rpc (bool_decide (Dial rpc = None)) (trace web) /\
      dials (trace plain) = 1%nat /\ dials (trace web) = 1%nat).
Proof.
  intros plain web.
  split; [|split]; subst plain web;
    unfold Ens.getAddressFromNameService, Ens.getAddressFromNameServiceWebHandler.
  - intros ->. split; reflexivity.
  - destruct (IsHexAddress nameWithSuffix); [split; reflexivity|].
    destruct (Ens.getConfigs _ _ _) as [[nsInfo rpc] [we|]]; [split; reflexivity|].
    intros Hn. now contradiction Hn.
  - intros nsInfo rpc -> ->.
    match goal with
    | |- ?P /\ ?Q /\ _ =>
        assert (P /\ Q) as [Hplain Hweb];
        [|repeat split; try assumption; eapply dialledOnce_dials; eassumption]
    end.
    eff_simpl. cbn [emit out trace].
    destruct (Dial rpc) as [e|]; cbn [bool_decide]; unfold dialledOnce.
    + rewrite bool_decide_eq_false_2 by discriminate. split; reflexivity.
    + rewrite bool_decide_eq_true_2 by reflexivity. cbn [defer trace].
      split; (eexists; split; [reflexivity|]).
      * case_bool_decide; [|apply simpleLookup_calls].
        destruct (Ens.NameHash nameWithSuffix) as [nameHash ?]. eff_simpl.
        apply Forall_app. split; [apply getResolver_calls|].
        destruct (out (Ens.getResolver _ _ _ _ _)) as [[resolver [e|]]|];
          [constructor | apply resolve_calls | constructor].
      * case_bool_decide; [|apply simpleLookup_calls].
        destruct (Ens.NameHash nameWithSuffix) as [nameHash ?]. eff_simpl.
        apply Forall_app. split; [apply getResolver_calls|].
        destruct (out (Ens.getResolver _ _ _ _ _)) as [[resolver [e|]]|];
          [constructor | apply webHandlerProbe_calls | constructor].
Qed.

End QuietHelper.

End ResolutionResults.

(** ** The simple name service *)

Lemma length_bytes_of_string (s : string) :
  length (bytes_of_string s) = String.length s.
Proof.
  unfold bytes_of_string. induction s as [|c s IH]; [reflexivity|].
  cbn. f_equal. exact IH.
Qed.

Lemma length_append (a b : string) :
  String.length (a +:+ b) = (String.length a + String.length b)%nat.
Proof.
  induction a as [|c a IH]; [reflexivity|].
  change (String c a +:+ b) with (String c (a +:+ b)). cbn. now rewrite IH.
Qed.

Lemma substring_prefix (a b : string) :
  String.substring 0 (String.length a) (a +:+ b) = a.
Proof.
  induction a as [|c a IH].
  - destruct b; reflexivity.
  - change (String c a +:+ b) with (String c (a +:+ b)). cbn. now rewrite IH.
Qed.

Lemma strip_suffix4_label (label tail : string) :
  String.length tail = 4%nat ->
  Ens.strip_suffix4 (label +:+ tail) = Returns label.
Proof.
  intros Ht. unfold Ens.strip_suffix4. rewrite length_append, Ht.
  replace (String.length label + 4 <? 4)%nat with false
    by (symmetry; apply Nat.ltb_ge; lia).
  replace (String.length label + 4 - 4)%nat with (String.length label) by lia.
  now rewrite substring_prefix.
Qed.

Lemma BytesToHash_32 (b : bytes) : length b = 32%nat -> BytesToHash b = b.
Proof.
  intros Hl. unfold BytesToHash. cbv zeta. rewrite Hl.
  change (32 - 32)%nat with 0%nat. change (skipn 0 b) with b.
  rewrite Hl. reflexivity.
Qed.

Lemma RightPadBytes_short (b : bytes) (l : nat) :
  (length b <= l)%nat ->
  RightPadBytes b l = b ++ repeat zero_byte (l - length b)
  /\ length (RightPadBytes b l) = l.
Proof.
  intros Hl. unfold RightPadBytes.
  destruct (Nat.leb_spec l (length b)) as [Hge|Hlt].
  - replace (l - length b)%nat with 0%nat by lia. cbn. rewrite app_nil_r.
    split; [reflexivity | lia].
  - split; [reflexivity|]. rewrite length_app, repeat_length. lia.
Qed.

Section SimpleService.
Context {normalizer : Normalizer} {hasher : Hasher} {common : Common}
        {caller : EthCaller} {codec : AbiCodec} {helpers : Helpers string}.

(** X3. For a name of a simple name service the two entry points are the
    same computation: the web-handler variant makes no probe. *)
Theorem simple_service_variants_agree (cfg : Config string)
    (nameServiceChain nameWithSuffix rpc : string) (nsInfo : NameServiceInfo) :
  Ens.getConfigs cfg nameServiceChain nameWithSuffix = (nsInfo, rpc, None) ->
  NSType nsInfo = SimpleNameService ->
  Ens.getAddressFromNameServiceWebHandler cfg nameServiceChain nameWithSuffix
  = Ens.getAddressFromNameService cfg nameServiceChain nameWithSuffix.
Proof.
  intros Hcfg Hsimple.
  unfold Ens.getAddressFromNameService, Ens.getAddressFromNameServiceWebHandler.
  destruct (IsHexAddress nameWithSuffix); [reflexivity|]. rewrite Hcfg.
  destruct (Dial rpc); [reflexivity|].
  rewrite !bool_decide_eq_false_2 by (intros Hn; now apply Hn). reflexivity.
Qed.

(** X4. A name of a simple name service that is shorter than 4 bytes makes
    the slice [nameWithSuffix[:len-4]] panic: the endpoint is dialled, no
    call is made, the client is closed and nothing is returned. *)
Theorem simple_service_short_name_panics (cfg : Config string)
    (nameServiceChain nameWithSuffix rpc : string) (nsInfo : NameServiceInfo) :
  IsHexAddress nameWithSuffix = false ->
  Ens.getConfigs cfg nameServiceChain nameWithSuffix = (nsInfo, rpc, None) ->
  NSType nsInfo = SimpleNameService ->
  Dial rpc = None ->
  (String.length nameWithSuffix < 4)%nat ->
  Ens.getAddressFromNameService cfg nameServiceChain nameWithSuffix
  = mkEff [EvDial rpc; EvClose rpc] (Panics "slice bounds out of range").
Proof.
  intros Hhex Hcfg Hsimple Hdial Hlen. unfold Ens.getAddressFromNameService.
  rewrite Hhex, Hcfg, Hdial.
  rewrite bool_decide_eq_false_2 by (intros Hn; now apply Hn).
  unfold Ens.simpleLookup, Ens.strip_suffix4.
  apply Nat.ltb_lt in Hlen. rewrite Hlen. reflexivity.
Qed.

(** X5. For a simple name service the label looked up is the name without
    its last 4 bytes, whatever the configured suffix is: with a name
    [label ++ tail], [tail] of 4 bytes and [label] of at most 32, the
    registry is asked for [pointers] of the bytes of [label] right-padded
    with zeros to 32. *)
Theorem simple_service_label (cfg : Config string)
    (nameServiceChain label tail rpc : string) (nsInfo : NameServiceInfo) :
  let name := label +:+ tail in
  IsHexAddress name = false ->
  Ens.getConfigs cfg nameServiceChain name = (nsInfo, rpc, None) ->
  NSType nsInfo = SimpleNameService ->
  Dial rpc = None ->
  String.length tail = 4%nat ->
  (String.length label <= 32)%nat ->
  let padded := bytes_of_string label ++ repeat zero_byte (32 - String.length label) in
  let lookup :=
    Ens.resolve cfg rpc nameServiceChain (HexToAddress (NSAddr nsInfo))
                ["pointers"; "bytes32!0x" +:+ Bytes2Hex padded] in
  out (Ens.getAddressFromNameService cfg nameServiceChain name) = out lookup
  /\ trace (Ens.getAddressFromNameService cfg nameServiceChain name)
     = EvDial rpc :: trace lookup ++ [EvClose rpc].
Proof.
  intros name Hhex Hcfg Hsimple Hdial Htail Hlabel padded lookup.
  unfold Ens.getAddressFromNameService. rewrite Hhex, Hcfg, Hdial.
  rewrite bool_decide_eq_false_2 by (intros Hn; now apply Hn).
  unfold Ens.simpleLookup. unfold name. rewrite (strip_suffix4_label _ _ Htail).
  assert (HashHex (RightPadBytes (bytes_of_string label) 32) = "0x" +:+ Bytes2Hex padded)
    as ->.
  { unfold HashHex.
    destruct (RightPadBytes_short (bytes_of_string label) 32) as [Hpad Hlen].
    { now rewrite length_bytes_of_string. }
    rewrite (BytesToHash_32 _ Hlen), Hpad, length_bytes_of_string. reflexivity. }
  change ("bytes32!" +:+ "0x" +:+ Bytes2Hex padded)
    with ("bytes32!0x" +:+ Bytes2Hex padded).
  split; reflexivity.
Qed.

End SimpleService.

(** ** The hierarchical name services *)

Section Hierarchical.
Context {normalizer : Normalizer} {hasher : Hasher} {common : Common}
        {caller : EthCaller} {codec : AbiCodec} {helpers : Helpers string}.

Lemma webHandlerProbe_unfold (cfg : Config string) (rpc nameServiceChain : string)
    (nsInfo : NameServiceInfo) (resolver : Address) (node : string) :
  Ens.webHandlerProbe cfg rpc nameServiceChain nsInfo resolver node
  = let fallback := Ens.resolve cfg rpc nameServiceChain resolver (addrArgs node) in
    match parseArguments nameServiceChain resolver (fst (probeOf nsInfo node)) with
    | (_, Some e) => mret (zero_address, "", Some e)
    | (msg, None) =>
        handleCallContract rpc msg ≫= fun '(bs, we) =>
          match we with
          | Some we => mret (zero_address, "", Some we)
          | None =>
              if negb (String.eqb (Bytes2Hex bs) Ens.EmptyStringABI) then
                match parseOutput bs (snd (probeOf nsInfo node)) with
                | Panics r => panic r
                | Returns (Ok res) =>
                    match Ens.first_string res with
                    | Panics r => panic r
                    | Returns s => mret (Ens.parseChainSpecificAddress cfg s)
                    end
                | Returns (Err _) => fallback
                end
              else fallback
          end
    end.
Proof.
  unfold Ens.webHandlerProbe, probeOf, addrArgs.
  destruct (bool_decide (NSType nsInfo = Web3QNameService)); reflexivity.
Qed.

(** X6. In a hierarchical name service, when the registry answers the
    all-zero bytes for [resolver(node)], both entry points stop with a
    [Web3Error] 400 "Cannot get resolver for <name>": after the dial they
    make the registry lookup only, then close the client. *)
Theorem zero_resolver_is_400 (cfg : Config string)
    (nameServiceChain nameWithSuffix rpc : string) (nsInfo : NameServiceInfo)
    (msg : CallMsg) :
  let node := HashHex (fst (Ens.NameHash nameWithSuffix)) in
  let registry := handleCallContract rpc msg in
  let stopped :=
    mkEff (EvDial rpc :: trace registry ++ [EvClose rpc])
          (Returns (zero_address, "",
                    Some (ErrWeb3 (mkWeb3Error 400
                            ("Cannot get resolver for " +:+ nameWithSuffix))))) in
  IsHexAddress nameWithSuffix = false ->
  Ens.getConfigs cfg nameServiceChain nameWithSuffix = (nsInfo, rpc, None) ->
  NSType nsInfo <> SimpleNameService ->
  Dial rpc = None ->
  parseArguments nameServiceChain (HexToAddress (NSAddr nsInfo))
                 ["resolver"; "bytes32!" +:+ node] = (msg, None) ->
  out registry = Returns (zero_hash, None) ->
  Ens.getAddressFromNameService cfg nameServiceChain nameWithSuffix = stopped
  /\ Ens.getAddressFromNameServiceWebHandler cfg nameServiceChain nameWithSuffix = stopped.
Proof.
  intros node registry stopped Hhex Hcfg Hns Hdial Hargs Hreg.
  assert (Ens.getResolver rpc (HexToAddress (NSAddr nsInfo)) node nameServiceChain
                          nameWithSuffix
          = mkEff (trace registry)
                  (Returns (zero_address,
                            Some (ErrWeb3 (mkWeb3Error 400
                                    ("Cannot get resolver for " +:+ nameWithSuffix))))))
    as Hres.
  { unfold Ens.getResolver. rewrite Hargs. fold registry.
    unfold mbind, Eff_bind. rewrite Hreg. cbn. now rewrite app_nil_r. }
  unfold Ens.getAddressFromNameService, Ens.getAddressFromNameServiceWebHandler.
  rewrite Hhex, Hcfg, Hdial. rewrite !bool_decide_eq_true_2 by assumption.
  subst node. destruct (Ens.NameHash nameWithSuffix) as [nameHash ?]. cbn [fst] in *.
  rewrite Hres. unfold stopped. split; cbn; now rewrite app_nil_r.
Qed.

(** X7. The lookup that the web-handler variant tries first.  An error of
    that call is returned as it is, with no address, and the [addr] lookup
    is not made.  When the call answers the ABI encoding of the empty
    string, or bytes that cannot be decoded as the expected type, the
    result is that of the [addr] lookup, made after the probe. *)
Theorem webHandlerProbe_recovery (cfg : Config string) (rpc nameServiceChain : string)
    (nsInfo : NameServiceInfo) (resolver : Address) (node : string)
    (msg : CallMsg) (bs : bytes) (we : option error) :
  let probe := Ens.webHandlerProbe cfg rpc nameServiceChain nsInfo resolver node in
  let call := handleCallContract rpc msg in
  let fallback := Ens.resolve cfg rpc nameServiceChain resolver (addrArgs node) in
  parseArguments nameServiceChain resolver (fst (probeOf nsInfo node)) = (msg, None) ->
  out call = Returns (bs, we) ->
  (forall e, we = Some e ->
             probe = mkEff (trace call) (Returns (zero_address, "", Some e))) /\
  (we = None ->
   bs = emptyStringReturn
   \/ (exists e, parseOutput bs (snd (probeOf nsInfo node)) = Returns (Err e)) ->
   probe = mkEff (trace call ++ trace fallback) (out fallback)).
Proof.
  intros probe call fallback Hargs Hcall. subst probe.
  rewrite webHandlerProbe_unfold. cbv zeta. rewrite Hargs. fold call fallback.
  unfold mbind, Eff_bind. rewrite Hcall. split.
  - intros e ->. cbn. now rewrite app_nil_r.
  - intros -> [->|[e He]].
    + reflexivity.
    + rewrite He. destruct (negb _); reflexivity.
Qed.

End Hierarchical.

(** ** Name hashes *)

Section MoreNames.
Context {normalizer : Normalizer} {hasher : Hasher}.

(** X8. [NameHash] depends on a non-empty name only through its normalized
    form: two non-empty names with the same normalized form have the same
    hash. *)
Theorem NameHash_same_normal_form (a b n : string) :
  a <> "" -> b <> "" ->
  Ens.Normalize a = (n, None) ->
  Ens.Normalize b = (n, None) ->
  Ens.NameHash a = Ens.NameHash b.
Proof.
  intros Ha Hb Hna Hnb.
  rewrite (NameHash_of_normalized a n Ha Hna).
  now rewrite (NameHash_of_normalized b n Hb Hnb).
Qed.

(** X9. For a non-empty name whose normalized form is a single label,
    [NameHash] is keccak256 of 32 zero bytes followed by [LabelHash] of the
    name, and [LabelHash] is keccak256 of the normalized label.  For a
    non-empty name that normalizes to the empty text this is keccak256 of 32
    zero bytes followed by keccak256 of no bytes: the test for the empty
    name is made on the name before it is normalized. *)
Theorem NameHash_single_label (label n : string) :
  label <> "" ->
  Ens.Normalize label = (n, None) ->
  Split n "." = [n] ->
  Ens.NameHash label
  = (Keccak256 (zero_hash ++ fst (Ens.LabelHash label)), None)
  /\ Ens.LabelHash label = (Keccak256 (bytes_of_string n), None)
  /\ (n = "" -> Ens.NameHash label = (Keccak256 (zero_hash ++ Keccak256 []), None)).
Proof.
  intros Hne Hn Hsingle.
  rewrite (NameHash_of_normalized label n Hne Hn), Hsingle.
  unfold Ens.LabelHash. rewrite Hn. repeat split. intros ->. reflexivity.
Qed.

End MoreNames.

(** ** Splitting, and the suffix of a name *)

Lemma Split_app (s1 s2 : string) (sep : ascii) :
  Split (s1 +:+ String sep s2) sep = Split s1 sep ++ Split s2 sep.
Proof.
  induction s1 as [|c s1 IH].
  - change ("" +:+ String sep s2) with (String sep s2). cbn [Split].
    now rewrite Ascii.eqb_refl.
  - change (String c s1 +:+ String sep s2) with (String c (s1 +:+ String sep s2)).
    cbn [Split]. rewrite IH. destruct (Ascii.eqb c sep); [reflexivity|].
    destruct (Split s1 sep) as [|p ps] eqn:Hs; [now apply Split_nonempty in Hs|].
    reflexivity.
Qed.

Lemma Split_without (s : string) (sep : ascii) :
  in_cutset sep s = false -> Split s sep = [s].
Proof.
  induction s as [|c s IH]; [reflexivity|]. cbn [in_cutset Split].
  rewrite Ascii.eqb_sym. destruct (Ascii.eqb c sep); [discriminate|].
  cbn [orb]. intros Hs. now rewrite (IH Hs).
Qed.

Lemma last_part_app (xs ys : list string) :
  ys <> [] -> last_part (xs ++ ys) = last_part ys.
Proof.
  intros Hys. unfold last_part. induction xs as [|x xs IH]; [reflexivity|].
  cbn [app]. destruct (xs ++ ys) eqn:E.
  - apply app_eq_nil in E as [_ ->]. contradiction.
  - rewrite <- IH. reflexivity.
Qed.

Section Suffixes.
Context {normalizer : Normalizer} {hasher : Hasher} {common : Common}
        {caller : EthCaller} {codec : AbiCodec} {helpers : Helpers string}.

(** X10. [getConfigs] is decided by the text after the last dot.  A name
    without a dot is rejected with a 400, whatever is configured; for a name
    [prefix.suffix] whose suffix has no dot, the chain must be a key of
    [ChainConfigs] and the suffix a key of that chain's [NSConfig], which
    then gives the name service and the endpoint; a missing key is a 400
    that names it. *)
Theorem getConfigs_by_suffix (cfg : Config string) (nameServiceChain : string) :
  (forall name,
      in_cutset "." name = false ->
      snd (Ens.getConfigs cfg nameServiceChain name)
      = Some (ErrWeb3 (mkWeb3Error 400 ("invalid domain name: " +:+ name)))) /\
  (forall prefix suffix,
      in_cutset "." suffix = false ->
      Ens.getConfigs cfg nameServiceChain (prefix +:+ "." +:+ suffix)
      = match ChainConfigs cfg !! nameServiceChain with
        | None =>
            (mkNameServiceInfo SimpleNameService "", "",
             Some (ErrWeb3 (mkWeb3Error 400 ("unsupported chain: " +:+ nameServiceChain))))
        | Some chainInfo =>
            match NSConfig chainInfo !! suffix with
            | None =>
                (mkNameServiceInfo SimpleNameService "", "",
                 Some (ErrWeb3 (mkWeb3Error 400 ("unsupported suffix: " +:+ suffix))))
            | Some nsInfo => (nsInfo, RPC chainInfo, None)
            end
        end).
Proof.
  split.
  - intros name Hname. unfold Ens.getConfigs.
    now rewrite (Split_without _ _ Hname).
  - intros prefix suffix Hsuffix. unfold Ens.getConfigs.
    change (prefix +:+ "." +:+ suffix) with (prefix +:+ String "." suffix).
    rewrite Split_app, (Split_without _ _ Hsuffix).
    rewrite last_part_app by discriminate.
    replace (length (Split prefix "." ++ [suffix]) <=? 1)%nat with false.
    + reflexivity.
    + symmetry. apply Nat.leb_gt. rewrite length_app. cbn.
      destruct (Split prefix ".") eqn:Hs; [now apply Split_nonempty in Hs|].
      cbn. lia.
Qed.

End Suffixes.

(** * Further properties of the client side *)

(** ** [FetchContractReturn] on every path *)

Section FetchPaths.
Context {hasher : Hasher} {common : Common} {caller : EthCaller}
        {codec : AbiCodec} {helpers : Helpers Z}.

Lemma deduceCalldata_early (web3Url : Client.Web3URL) (err : error) :
  Client.deduceCalldata web3Url = inl err ->
  Client.ContractCallMode web3Url = Client.ContractCallModeMethod /\
  Pack (Client.MethodArgs web3Url) (Client.MethodArgValues web3Url) = Err err.
Proof.
  unfold Client.deduceCalldata.
  destruct (String.eqb_spec (Client.ContractCallMode web3Url) Client.ContractCallModeMethod)
    as [Hm|Hm].
  - destruct (Pack _ _); [discriminate|]. intros [= ->]. now split.
  - destruct (String.eqb _ _); discriminate.
Qed.

(** X11. [FetchContractReturn] never panics, and when it returns without
    an error the bytes it returns are not empty and are the answer of the
    one contract call it made, between a dial and a close of the endpoint
    of the target chain. *)
Theorem FetchContractReturn_success (cfg : Config Z) (web3Url : Client.Web3URL) :
  let run := Client.FetchContractReturn cfg web3Url in
  let rpc := Client.rpcOf cfg (Client.ChainId web3Url) in
  (exists r, out run = Returns r) /\
  (forall bs, out run = Returns (bs, None) ->
     bs <> [] /\
     exists msg, trace run = [EvDial rpc; EvCall rpc msg; EvClose rpc] /\
                 To msg = Some (Client.ContractAddress web3Url) /\
                 CallContract rpc msg = (bs, None)).
Proof.
  intros run rpc. subst run.
  destruct (Client.deduceCalldata web3Url) as [err|[calldata err0]] eqn:Hd.
  - rewrite (FetchContractReturn_early cfg _ _ Hd). split; [eauto|]. intros bs [=].
  - rewrite (FetchContractReturn_run cfg _ _ _ Hd). fold rpc.
    destruct (Dial rpc) as [d|]; [split; [eauto|intros bs [=]]|].
    split; [eauto|]. cbn [out trace]. intros bs Hout.
    destruct (CallContract rpc _) as [bs' [e|]] eqn:Hcall; [discriminate|].
    destruct (Nat.eqb_spec (length bs') 0) as [Hz|Hnz]; [discriminate|].
    injection Hout as <-. split; [now destruct bs'|].
    eexists. repeat split. exact Hcall.
Qed.

(** X12. The errors of [FetchContractReturn].  An error is returned in
    three situations only: the packing of the arguments failed (method mode;
    the error of the codec is returned as it is, nothing is dialled); the
    dial failed (a [Web3Error] 400, no call); or the call was made and
    failed or answered nothing (a [Web3Error] 404). *)
Theorem FetchContractReturn_errors (cfg : Config Z) (web3Url : Client.Web3URL)
    (bs : bytes) (e : error) :
  let run := Client.FetchContractReturn cfg web3Url in
  let rpc := Client.rpcOf cfg (Client.ChainId web3Url) in
  out run = Returns (bs, Some e) ->
  (trace run = [] /\ bs = [] /\
   Client.ContractCallMode web3Url = Client.ContractCallModeMethod /\
   Pack (Client.MethodArgs web3Url) (Client.MethodArgValues web3Url) = Err e)
  \/ (trace run = [EvDial rpc] /\ bs = [] /\
      exists d, Dial rpc = Some d /\ e = ErrWeb3 (mkWeb3Error 400 d))
  \/ (exists msg m,
        trace run = [EvDial rpc; EvCall rpc msg; EvClose rpc] /\
        fst (CallContract rpc msg) = bs /\
        e = ErrWeb3 (mkWeb3Error 404 m) /\
        (snd (CallContract rpc msg) = Some m
         \/ (CallContract rpc msg = ([], None) /\ m = Client.no_data_message))).
Proof.
  intros run rpc. subst run.
  destruct (Client.deduceCalldata web3Url) as [err|[calldata err0]] eqn:Hd.
  - rewrite (FetchContractReturn_early cfg _ _ Hd). intros [= <- <-]. left.
    apply deduceCalldata_early in Hd as [Hm Hp]. auto.
  - rewrite (FetchContractReturn_run cfg _ _ _ Hd). fold rpc.
    destruct (Dial rpc) as [d|] eqn:Hdial.
    + intros [= <- <-]. right; left. eauto 10.
    + cbn [out trace]. intros Hout. right; right.
      destruct (CallContract rpc _) as [bs' [m|]] eqn:Hcall.
      * injection Hout as <- <-. do 2 eexists. rewrite Hcall. cbn. eauto 10.
      * destruct (Nat.eqb_spec (length bs') 0) as [Hz|Hnz]; [|discriminate].
        injection Hout as <- <-. destruct bs'; [|discriminate].
        do 2 eexists. rewrite Hcall. cbn. eauto 10.
Qed.

(** X13. In [calldata] mode the bytes of the URL record are sent as they
    are: every call made carries [Calldata] as its data, and the call is
    made whenever the endpoint can be dialled. *)
Theorem calldata_is_passed_through (cfg : Config Z) (web3Url : Client.Web3URL) :
  Client.ContractCallMode web3Url = Client.ContractCallModeCalldata ->
  let run := Client.FetchContractReturn cfg web3Url in
  let rpc := Client.rpcOf cfg (Client.ChainId web3Url) in
  (forall r msg, EvCall r msg ∈ trace run -> Data msg = Client.Calldata web3Url) /\
  (Dial rpc = None ->
   calls run = [EvCall rpc (Client.callMessageFor web3Url (Client.Calldata web3Url))]).
Proof.
  intros Hmode run rpc. subst run.
  assert (Client.deduceCalldata web3Url = inr (Client.Calldata web3Url, None)) as Hd.
  { unfold Client.deduceCalldata. rewrite Hmode. reflexivity. }
  split.
  - intros r msg Hin.
    apply FetchContractReturn_call in Hin as (calldata & err0 & Hd' & _ & -> & _).
    rewrite Hd in Hd'. now injection Hd' as <- _.
  - intros Hdial. unfold calls. rewrite (FetchContractReturn_run cfg _ _ _ Hd).
    fold rpc. rewrite Hdial. reflexivity.
Qed.

End FetchPaths.

(** ** [ProcessContractReturn] on every path *)

Section ProcessPaths.
Context {codec : AbiCodec} {helpers : Helpers Z}.

(** A case analysis that follows the branches of [ProcessContractReturn]. *)
Ltac process_cases web3Url :=
  unfold Client.ProcessContractReturn;
  destruct (String.eqb_spec (Client.ContractReturnProcessing web3Url) "");
  [|destruct (String.eqb_spec (Client.ContractReturnProcessing web3Url)
                              Client.ContractReturnProcessingABIEncodedBytes);
    [|destruct (String.eqb_spec (Client.ContractReturnProcessing web3Url)
                                Client.ContractReturnProcessingRawBytesJsonEncoded);
      [|destruct (String.eqb_spec (Client.ContractReturnProcessing web3Url)
                                  Client.ContractReturnProcessingJsonEncodeValues)]]];
  repeat case_match; intros; simplify_eq.

(** The two facts about the record that [FetchUrl] relies on. *)
Lemma ProcessContractReturn_record (web3Url : Client.Web3URL)
    (contractReturn : bytes) (fetched : Client.FetchedWeb3URL) (err : option error) :
  Client.ProcessContractReturn web3Url contractReturn = Returns (fetched, err) ->
  Client.ParsedUrl fetched = None /\
  Client.ContractReturn fetched = [] /\
  (err <> None -> fetched = Client.emptyFetched).
Proof.
  process_cases web3Url; cbn; repeat split; try reflexivity;
    intros Hne; now contradiction Hne.
Qed.

(** X14. Whatever the mode and the bytes, the record that
    [ProcessContractReturn] returns has no parsed URL and no contract
    return in it, and no header other than [Content-Type]. *)
Theorem ProcessContractReturn_leaves_unset (web3Url : Client.Web3URL)
    (contractReturn : bytes) (fetched : Client.FetchedWeb3URL) (err : option error) :
  Client.ProcessContractReturn web3Url contractReturn = Returns (fetched, err) ->
  Client.ParsedUrl fetched = None /\
  Client.ContractReturn fetched = [] /\
  (forall k, k <> "Content-Type" -> Client.HttpHeaders fetched !! k = None).
Proof.
  process_cases web3Url; cbn; repeat split; try reflexivity;
    intros k Hk; rewrite ?lookup_insert_ne by congruence; apply lookup_empty.
Qed.

(** X15. The status of a processed return.  With an error the record is
    the empty one (code 0, nil output, no header).  Without an error either
    the mode is one of the three implemented ones and the code is 200 with
    an output, or the mode is some other non-empty text and the record is
    the empty one: a mode that is not recognized is not an error. *)
Theorem ProcessContractReturn_status (web3Url : Client.Web3URL)
    (contractReturn : bytes) (fetched : Client.FetchedWeb3URL) (err : option error) :
  Client.ProcessContractReturn web3Url contractReturn = Returns (fetched, err) ->
  match err with
  | Some _ => fetched = Client.emptyFetched
  | None =>
      (implementedProcessing (Client.ContractReturnProcessing web3Url) /\
       Client.HttpCode fetched = 200%Z /\ Client.Output fetched <> None)
      \/ (~ implementedProcessing (Client.ContractReturnProcessing web3Url) /\
          Client.ContractReturnProcessing web3Url <> "" /\
          fetched = Client.emptyFetched)
  end.
Proof.
  unfold implementedProcessing.
  process_cases web3Url; cbn; try reflexivity;
    try (left; repeat split; [tauto | discriminate]; fail).
  right. repeat split; [|assumption]. intros [?|[?|?]]; contradiction.
Qed.

(** X16. The [Content-Type] of a processed return: in the ABI-bytes mode
    it is the MIME type of the URL record when that is not empty and absent
    otherwise; in the two JSON modes it is [application/json]. *)
Theorem ProcessContractReturn_content_type (web3Url : Client.Web3URL)
    (contractReturn : bytes) (fetched : Client.FetchedWeb3URL) :
  Client.ProcessContractReturn web3Url contractReturn = Returns (fetched, None) ->
  let mode := Client.ContractReturnProcessing web3Url in
  let mime := Client.DecodedABIEncodedBytesMimeType web3Url in
  (mode = Client.ContractReturnProcessingABIEncodedBytes ->
   Client.HttpHeaders fetched !! "Content-Type"
   = if String.eqb mime "" then None else Some mime) /\
  (mode = Client.ContractReturnProcessingRawBytesJsonEncoded
   \/ mode = Client.ContractReturnProcessingJsonEncodeValues ->
   Client.HttpHeaders fetched !! "Content-Type" = Some "application/json").
Proof.
  process_cases web3Url; cbn; split; intros Hmode;
    try (destruct Hmode as [Hmode|Hmode]); try congruence;
    rewrite ?lookup_insert_eq; try reflexivity;
    try (rewrite Hmode in *; discriminate).
Qed.

End ProcessPaths.

(** ** [parseOutput] *)

Section ParseOutputPaths.
Context {K : Type} {codec : AbiCodec} {helpers : Helpers K}.

Lemma newTypes_error (returnArgs : list string) (e : error) :
  newTypes returnArgs = Err e -> exists msg, e = ErrWeb3 (mkWeb3Error 400 msg).
Proof.
  induction returnArgs as [|arg rest IH]; cbn; [discriminate|].
  destruct (NewType arg); [|intros [= <-]; eauto].
  destruct (newTypes rest); [discriminate|]. intros [= <-]. now apply IH.
Qed.

Lemma toJSON_each_length (tys : list AbiType) (i : nat) (res res' : list GoValue) :
  toJSON_each tys i res = Returns res' ->
  length res' = length res /\ (i + length tys <= length res \/ tys = [])%nat.
Proof.
  revert i res. induction tys as [|ty tys IH]; cbn; intros i res.
  - intros [= <-]. split; [reflexivity | now right].
  - destruct (res !! i) as [v|] eqn:Hv; [|discriminate].
    intros Hrest. apply IH in Hrest as [Hlen Hbound].
    rewrite length_insert in Hlen, Hbound. split; [exact Hlen|]. left.
    apply lookup_lt_Some in Hv. destruct Hbound as [Hb| ->]; cbn; lia.
Qed.

(** X17. Every error that [parseOutput] returns is a [Web3Error] with
    HTTP code 400, whether it comes from a type name or from the decoding. *)
Theorem parseOutput_errors_are_400 (output : bytes) (userTypes : string) (e : error) :
  parseOutput output userTypes = Returns (Err e) ->
  exists msg, e = ErrWeb3 (mkWeb3Error 400 msg).
Proof.
  unfold parseOutput. destruct (String.eqb userTypes "()"); [discriminate|].
  destruct (newTypes _) as [tys|e'] eqn:Hty.
  - destruct (UnpackValues tys output); [|intros [= <-]; eauto].
    destruct (String.eqb userTypes ""); [discriminate|].
    destruct (toJSON_each _ _ _); discriminate.
  - intros [= <-]. eapply newTypes_error, Hty.
Qed.

(** X18. The values that [parseOutput] returns.  For the type text "()"
    it is the one text "0x" followed by the hexadecimal digits of the bytes,
    whatever they are.  Otherwise there are as many values as the decoder
    produced; with an empty type text the bytes are decoded as [(bytes)] and
    the values are returned as decoded, without the conversion by
    [toJSON]. *)
Theorem parseOutput_values (output : bytes) (userTypes : string) :
  let returnTypes := if String.eqb userTypes "" then "(bytes)" else userTypes in
  let returnArgs := Split (Trim returnTypes "()") "," in
  (userTypes = "()" ->
   parseOutput output userTypes = Returns (Ok [of_string ("0x" +:+ Bytes2Hex output)])) /\
  (forall tys vals,
      userTypes <> "()" ->
      newTypes returnArgs = Ok tys ->
      UnpackValues tys output = Ok vals ->
      (userTypes = "" -> parseOutput output userTypes = Returns (Ok vals)) /\
      (forall res, parseOutput output userTypes = Returns (Ok res) ->
                   length res = length vals)).
Proof.
  intros returnTypes returnArgs. split.
  - intros ->. reflexivity.
  - intros tys vals Hne Hty Hun. apply String.eqb_neq in Hne.
    unfold parseOutput. rewrite Hne. fold returnTypes. fold returnArgs.
    rewrite Hty, Hun. repeat split.
    + intros ->. reflexivity.
    + intros res. destruct (String.eqb userTypes ""); [now intros [= <-]|].
      destruct (toJSON_each tys 0 vals) as [res'|] eqn:Hj; [|discriminate].
      intros [= <-]. now apply toJSON_each_length in Hj as [Hl _].
Qed.

End ParseOutputPaths.

(** ** The runs of [checkResolveMode] *)

Section ProbeRuns.
Context {hasher : Hasher} {common : Common} {caller : EthCaller}
        {codec : AbiCodec} {helpers : Helpers Z}.

(** X19. [checkResolveMode] has no error to return, and it panics in two
    situations: when the message for [resolveMode()] cannot be built, before
    anything is dialled, and when the dial fails, the error of the dial being
    dropped and the call made on a nil client.  Otherwise it dials the
    endpoint of the chain of the URL, makes the one call and closes. *)
Theorem checkResolveMode_runs (cfg : Config Z) (web3Url : Client.Web3URL) :
  let run := Client.checkResolveMode cfg web3Url in
  let rpc := Client.rpcOf cfg (Client.ChainId web3Url) in
  let built := parseArguments 0%Z (Client.ContractAddress web3Url) ["resolveMode"] in
  (forall err, snd built = Some err -> run = mkEff [] (Panics (Error err))) /\
  (forall d, snd built = None -> Dial rpc = Some d ->
             run = mkEff [EvDial rpc] (Panics nil_dereference)) /\
  (snd built = None -> Dial rpc = None ->
   trace run = [EvDial rpc; EvCall rpc (fst built); EvClose rpc] /\
   exists mode, out run = Returns mode).
Proof.
  intros run rpc built. subst run. unfold Client.checkResolveMode.
  fold built. destruct built as [msg [err|]]; cbn [fst snd].
  - split; [|split]; [intros ? [= <-]; reflexivity | discriminate | discriminate].
  - split; [discriminate|]. fold rpc. split.
    + intros d _ ->. reflexivity.
    + intros _ ->. cbn. destruct (CallContract rpc msg) as [bs [e|]]; cbn;
        [eauto|]. repeat case_match; cbn; eauto.
Qed.

End ProbeRuns.

(** * Properties of the URL functions *)

(** ** The pattern of a URL *)

Lemma span_spec (keep : ascii -> bool) (s taken remaining : string) :
  Url.span keep s = (taken, remaining) ->
  s = taken +:+ remaining /\ Url.allChars keep taken = true.
Proof.
  revert taken remaining. induction s as [|c s IH]; cbn; intros taken remaining.
  - intros [= <- <-]. now split.
  - destruct (keep c) eqn:Hc.
    + destruct (Url.span keep s) as [t r]. intros [= <- <-].
      destruct (IH t r eq_refl) as [-> Hall]. split; [reflexivity|].
      cbn. now rewrite Hc, Hall.
    + intros [= <- <-]. now split.
Qed.

Lemma eqb_char (c d : ascii) : Ascii.eqb c d = true -> c = d.
Proof. apply Ascii.eqb_eq. Qed.

Lemma matchChainId_spec (s digits remaining : string) :
  Url.matchChainId s = Some (digits, remaining) ->
  s = (if String.eqb digits "" then "" else ":" +:+ digits) +:+ remaining
  /\ Url.allChars Url.isDigit digits = true.
Proof.
  unfold Url.matchChainId. destruct s as [|c rest]; [now intros [= <- <-]|].
  destruct (Ascii.eqb c ":") eqn:Hc; [|now intros [= <- <-]].
  apply eqb_char in Hc as ->.
  destruct (Url.span Url.isDigit rest) as [ds r] eqn:Hspan.
  apply span_spec in Hspan as [-> Hall].
  destruct ds as [|d ds]; [discriminate|].
  destruct (Ascii.eqb d "0"); [discriminate|]. intros [= <- <-]. now split.
Qed.

Lemma matchPath_spec (s name query : string) :
  Url.matchPath s = Some (name, query) ->
  (s = name \/ s = name +:+ "?" +:+ query)
  /\ Url.allChars Url.notQuestion name = true
  /\ Url.allChars Url.notLineFeed query = true.
Proof.
  unfold Url.matchPath.
  assert (exists n r, (match s with
                       | String c _ => if Ascii.eqb c "/" then Url.span Url.notQuestion s
                                       else (EmptyString, s)
                       | EmptyString => (EmptyString, EmptyString)
                       end) = (n, r)
                      /\ s = n +:+ r /\ Url.allChars Url.notQuestion n = true)
    as (n & r & -> & Hs & Hn).
  { destruct s as [|c s']; [now exists "", ""|].
    destruct (Ascii.eqb c "/").
    - destruct (Url.span Url.notQuestion (String c s')) as [n r] eqn:Hspan.
      exists n, r. split; [reflexivity|]. now apply span_spec.
    - exists "", (String c s'). now repeat split. }
  destruct r as [|c query'].
  - intros [= <- <-]. rewrite append_empty_r in Hs. auto.
  - destruct (Ascii.eqb c "?") eqn:Hc; [|discriminate]. apply eqb_char in Hc as ->.
    destruct (Url.allChars Url.notLineFeed query') eqn:Hq; [|discriminate].
    intros [= <- <-]. auto.
Qed.

(** A URL that matches begins with its protocol and "://". *)
Lemma matchWeb3Url_prefix (url : string) (parts : Url.UrlMainParts) :
  Url.matchWeb3Url url = Some parts ->
  exists rest, url = Url.protocol parts +:+ "://" +:+ rest.
Proof.
  unfold Url.matchWeb3Url.
  destruct (Url.span Url.notColon url) as [proto r1] eqn:Hproto.
  apply span_spec in Hproto as [-> _].
  destruct proto as [|p0 proto]; [discriminate|].
  destruct r1 as [|c0 [|c1 [|c2 r2]]]; try discriminate.
  destruct (Ascii.eqb c0 ":") eqn:H0; [|discriminate].
  destruct (Ascii.eqb c1 "/") eqn:H1; [|discriminate].
  destruct (Ascii.eqb c2 "/") eqn:H2; [|discriminate].
  apply eqb_char in H0 as ->, H1 as ->, H2 as ->. cbn [andb].
  destruct (Url.span Url.hostChar r2) as [[|h0 host] r3]; [discriminate|].
  destruct (Url.matchChainId r3) as [[chain r4]|]; [|discriminate].
  destruct (Url.matchPath r4) as [[name query]|]; [|discriminate].
  intros [= <-]. exists r2. reflexivity.
Qed.

(** X20. The groups of a URL that matches the pattern of [ParseUrl] give
    the URL back: it is the protocol, "://", the host name, a colon and the
    chain identifier when there is one, and the path; the path is the path
    name alone or followed by "?" and the search parameters.  The protocol
    is not empty and has no colon, the host name is not empty and has no
    colon, slash or question mark, and the chain identifier is made of
    digits. *)
Theorem matchWeb3Url_round_trip (url : string) (parts : Url.UrlMainParts) :
  Url.matchWeb3Url url = Some parts ->
  url = Url.protocol parts +:+ "://" +:+ Url.hostname parts
        +:+ (if String.eqb (Url.chainId parts) "" then ""
             else ":" +:+ Url.chainId parts)
        +:+ Url.path parts
  /\ (Url.path parts = Url.pathname parts
      \/ Url.path parts = Url.pathname parts +:+ "?" +:+ Url.searchParams parts)
  /\ Url.protocol parts <> "" /\ Url.allChars Url.notColon (Url.protocol parts) = true
  /\ Url.hostname parts <> "" /\ Url.allChars Url.hostChar (Url.hostname parts) = true
  /\ Url.allChars Url.isDigit (Url.chainId parts) = true.
Proof.
  unfold Url.matchWeb3Url.
  destruct (Url.span Url.notColon url) as [proto r1] eqn:Hproto.
  apply span_spec in Hproto as [-> Hp].
  destruct proto as [|p0 proto]; [discriminate|].
  destruct r1 as [|c0 [|c1 [|c2 r2]]]; try discriminate.
  destruct (Ascii.eqb c0 ":") eqn:H0; [|discriminate].
  destruct (Ascii.eqb c1 "/") eqn:H1; [|discriminate].
  destruct (Ascii.eqb c2 "/") eqn:H2; [|discriminate].
  apply eqb_char in H0 as ->, H1 as ->, H2 as ->. cbn [andb].
  destruct (Url.span Url.hostChar r2) as [host r3] eqn:Hhost.
  apply span_spec in Hhost as [-> Hh].
  destruct host as [|h0 host]; [discriminate|].
  destruct (Url.matchChainId r3) as [[chain r4]|] eqn:Hchain; [|discriminate].
  apply matchChainId_spec in Hchain as [-> Hc].
  destruct (Url.matchPath r4) as [[name query]|] eqn:Hpath; [|discriminate].
  apply matchPath_spec in Hpath as (Hr4 & _ & _).
  intros [= <-]. cbn [Url.protocol Url.hostname Url.chainId Url.path Url.pathname
                      Url.searchParams].
  repeat split; try assumption; try discriminate.
Qed.

(** ** [ParseUrl] *)

Section ParseUrlPaths.
Context {hasher : Hasher} {common : Common} {caller : EthCaller}
        {codec : AbiCodec} {helpers : Helpers Z} {env : Url.ClientEnv}.

(** X21. [ParseUrl] accepts only the scheme [web3]: a URL that does not
    begin with "web3://" is rejected with a [Web3Error] 400 before anything
    is dialled, resolved or put in the cache. *)
Theorem ParseUrl_only_web3 (cfg : Config Z) (cache : option Url.localCache)
    (url : string) :
  HasPrefix url "web3://" = false ->
  exists msg,
    Url.ParseUrl cfg cache url
    = mkEff [] (Returns (Err (ErrWeb3 (mkWeb3Error 400 msg)), cache)).
Proof.
  intros Hprefix. unfold Url.ParseUrl.
  destruct (Url.matchWeb3Url url) as [parts|] eqn:Hm; [|eauto].
  destruct (String.eqb_spec (Url.protocol parts) "web3") as [Hp|Hp]; [|cbn; eauto].
  exfalso. apply matchWeb3Url_prefix in Hm as (rest & Hurl).
  rewrite Hp in Hurl. rewrite Hurl in Hprefix. destruct rest; discriminate.
Qed.

(** X22. The chain of a URL that matches and has the scheme [web3].
    Without a chain identifier the chain is 1; with one it is its decimal
    value, and an identifier beyond the range of [int] is a 400.  A chain
    that is not a key of [ChainConfigs] is a 400.  In each of these
    rejections nothing is dialled and the cache is left as it was. *)
Theorem ParseUrl_chain (cfg : Config Z) (cache : option Url.localCache)
    (url : string) (parts : Url.UrlMainParts) :
  Url.matchWeb3Url url = Some parts ->
  Url.protocol parts = "web3" ->
  let rejected msg :=
    Url.ParseUrl cfg cache url
    = mkEff [] (Returns (Err (ErrWeb3 (mkWeb3Error 400 msg)), cache)) in
  (Url.chainId parts = "" -> ChainConfigs cfg !! 1%Z = None ->
   rejected "Unsupported chain 1") /\
  (Url.chainId parts <> "" -> Url.Atoi (Url.chainId parts) = None ->
   rejected ("Unsupported chain " +:+ Url.chainId parts)) /\
  (forall n, Url.chainId parts <> "" -> Url.Atoi (Url.chainId parts) = Some n ->
             ChainConfigs cfg !! n = None ->
             rejected ("Unsupported chain " +:+ Url.Itoa n)) /\
  (forall u c, out (Url.ParseUrl cfg cache url) = Returns (Ok u, c) ->
               exists n, Url.chainOf cfg parts = Ok n /\
                         is_Some (ChainConfigs cfg !! n) /\
                         (Url.chainId parts = "" -> n = 1%Z) /\
                         (Url.chainId parts <> "" -> Url.Atoi (Url.chainId parts) = Some n)).
Proof.
  intros Hm Hp rejected. subst rejected. unfold Url.ParseUrl. rewrite Hm, Hp.
  cbn [String.eqb negb]. change ("web3" =? "web3")%string with true. cbn [negb].
  unfold Url.chainOf.
  assert (forall s, (0 <? String.length s)%nat = negb (String.eqb s "")) as Hlen
    by (intros [|? ?]; reflexivity).
  rewrite Hlen. repeat split.
  - intros -> H1. cbn. rewrite H1. reflexivity.
  - intros Hne Ha. apply String.eqb_neq in Hne. rewrite Hne, Ha. reflexivity.
  - intros n Hne Ha Hn. apply String.eqb_neq in Hne. rewrite Hne, Ha. cbn.
    rewrite Hn. reflexivity.
  - intros u c.
    destruct (String.eqb_spec (Url.chainId parts) "") as [He|He]; cbn [negb].
    + destruct (ChainConfigs cfg !! 1%Z) eqn:H1; [|intros [=]].
      intros _. exists 1%Z. repeat split; eauto. intros Hn. contradiction.
    + destruct (Url.Atoi (Url.chainId parts)) as [n|]; [|intros [=]].
      destruct (ChainConfigs cfg !! n) eqn:Hn; [|intros [=]].
      intros _. exists n. repeat split; eauto. intros He'. contradiction.
Qed.

(** X23. The cache of resolved names.  The key is the chain, a colon and
    the host name.  On a hit the cached address and target chain are used
    and the name service is not asked; without a cache, or on a miss, it is
    asked once: an error is returned and the cache is left as it was, and a
    result is returned and put in the cache under the key. *)
Theorem lookupName_cache (cache : option Url.localCache) (chain : Z) (host : string) :
  let key := Url.Itoa chain +:+ ":" +:+ host in
  let asked := Url.getAddressFromNameServiceWebHandler chain host in
  (forall c a t,
      cache = Some c -> Url.cache_get c key = (a, t, true) ->
      Url.lookupName cache chain host = mkEff [] (Returns (Ok (a, t), cache))) /\
  (forall a t err,
      cache = None \/ (exists c a0 t0, cache = Some c /\
                                      Url.cache_get c key = (a0, t0, false)) ->
      out asked = Returns (a, t, err) ->
      Url.lookupName cache chain host
      = mkEff (trace asked)
              (Returns match err with
                       | Some e => (Err e, cache)
                       | None => (Ok (a, t),
                                  option_map (fun c => Url.cache_add c key a t) cache)
                       end)).
Proof.
  intros key asked. unfold Url.lookupName. fold key. fold asked. split.
  - intros c a t -> ->. reflexivity.
  - intros a t err Hmiss Hasked.
    destruct Hmiss as [->|(c & a0 & t0 & -> & Hget)]; [|rewrite Hget];
      cbv beta iota zeta; unfold mbind, Eff_bind; rewrite Hasked;
      destruct err; cbn; now rewrite app_nil_r.
Qed.

(** X24. The chain of the call for a resolved name.  When the name
    service returns a target chain greater than 0 the call goes to that
    chain, otherwise to the chain of the URL; the resolver chain is the
    chain of the URL in both cases.  A chain of the call that is not
    configured is a 400, returned with the cache as the look-up left it: the
    name stays cached. *)
Theorem resolveHost_target_chain (cfg : Config Z) (cache cache1 : option Url.localCache)
    (chain targetChain : Z) (host : string) (nsInfo : NameServiceInfo) (addr : Address) :
  let chain1 := if (0 <? targetChain)%Z then targetChain else chain in
  let looked := Url.lookupName cache chain host in
  IsHexAddress host = false ->
  (1 < length (Split host "."))%nat ->
  NSConfig (default zero_ChainConfig (ChainConfigs cfg !! chain))
    !! last_part (Split host ".") = Some nsInfo ->
  out looked = Returns (Ok (addr, targetChain), cache1) ->
  Url.resolveHost cfg cache chain host
  = mkEff (trace looked)
      (Returns
         (match ChainConfigs cfg !! chain1 with
          | None => Err (ErrWeb3 (mkWeb3Error 400
                                    ("unsupported chain id: " +:+ Url.Itoa chain1)))
          | Some _ => Ok (Url.nsTypeName (NSType nsInfo), chain, addr, chain1)
          end, cache1)).
Proof.
  intros chain1 looked Hhex Hlen Hns Hlooked. unfold Url.resolveHost.
  rewrite Hhex. apply Nat.leb_gt in Hlen. rewrite Hlen, Hns. fold looked.
  unfold mbind, Eff_bind. rewrite Hlooked. fold chain1.
  destruct (ChainConfigs cfg !! chain1); cbn; now rewrite app_nil_r.
Qed.

(** X25. A contract whose probe answers [resource-request] cannot be
    fetched.  [ParseUrl] leaves the call mode and the return processing of
    the URL record empty, so [FetchUrl] dials, calls the contract with empty
    calldata, and ends with an error in every case: a [Web3Error] 400 or 404
    from the call, or the error "Missing ContractReturnProcessing field"
    when the call returned data. *)
Theorem FetchUrl_resource_request (cfg : Config Z) (cache cache1 : option Url.localCache)
    (url resolver : string) (parts : Url.UrlMainParts)
    (chain resolverChain chain1 : Z) (addr : Address) :
  let probed := resolvedUrl_probe cfg url resolver resolverChain addr chain1 in
  Url.matchWeb3Url url = Some parts ->
  Url.protocol parts = "web3" ->
  Url.chainOf cfg parts = Ok chain ->
  out (Url.resolveHost cfg cache chain (Url.hostname parts))
  = Returns (Ok (resolver, resolverChain, addr, chain1), cache1) ->
  out probed = Returns Client.ResolveModeResourceRequests ->
  let web3Url := Url.resolvedUrl url resolver resolverChain addr chain1
                                 Client.ResolveModeResourceRequests in
  out (Url.ParseUrl cfg cache url) = Returns (Ok web3Url, cache1) /\
  (forall r msg, EvCall r msg ∈ trace (Client.FetchContractReturn cfg web3Url) ->
                 Data msg = []) /\
  exists e,
    out (Url.FetchUrl cfg cache url) = Returns (Client.emptyFetched, Some e, cache1) /\
    ((exists code msg, e = ErrWeb3 (mkWeb3Error code msg) /\ (code = 400 \/ code = 404)%Z)
     \/ e = errors_New "Missing ContractReturnProcessing field").
Proof.
  intros probed Hm Hp Hchain Hhost Hprobe web3Url.
  assert (out (Url.ParseUrl cfg cache url) = Returns (Ok web3Url, cache1)) as Hparse.
  { unfold Url.ParseUrl. rewrite Hm, Hp, Hchain.
    change (negb ("web3" =? "web3")%string) with false. cbv iota.
    rewrite out_bind, Hhost. cbv beta iota. rewrite out_bind.
    fold (resolvedUrl_probe cfg url resolver resolverChain addr chain1).
    fold probed. rewrite Hprobe. reflexivity. }
  assert (Client.deduceCalldata web3Url
          = inr ([], Some (errors_New "ContractCallMode is empty"))) as Hd
    by reflexivity.
  split; [exact Hparse|]. split.
  - intros r msg Hin.
    apply FetchContractReturn_call in Hin as (calldata & err0 & Hd' & _ & -> & _).
    rewrite Hd in Hd'. now injection Hd' as <- _.
  - unfold Url.FetchUrl. rewrite out_bind, Hparse. cbv beta iota.
    rewrite out_bind, (FetchContractReturn_run cfg _ _ _ Hd).
    destruct (Dial _) as [d|]; cbn [out].
    + eexists. split; [reflexivity|]. left. eauto 10.
    + destruct (CallContract _ _) as [bs [m|]].
      * eexists. split; [reflexivity|]. left. eauto 10.
      * destruct (length bs =? 0)%nat.
        -- eexists. split; [reflexivity|]. left. eauto 10.
        -- eexists. split; [reflexivity|]. now right.
Qed.

(** X26. What [FetchUrl] hands back.  When [ParseUrl] fails, [FetchUrl]
    does nothing more: it returns that error with the zero record.  And in
    every result of [FetchUrl] the record has neither the parsed URL nor the
    contract return in it, and is the zero record whenever there is an
    error. *)
Theorem FetchUrl_results (cfg : Config Z) (cache : option Url.localCache) (url : string) :
  (forall e c, out (Url.ParseUrl cfg cache url) = Returns (Err e, c) ->
               Url.FetchUrl cfg cache url
               = mkEff (trace (Url.ParseUrl cfg cache url))
                       (Returns (Client.emptyFetched, Some e, c))) /\
  (forall fetched err c,
      out (Url.FetchUrl cfg cache url) = Returns (fetched, err, c) ->
      Client.ParsedUrl fetched = None /\
      Client.ContractReturn fetched = [] /\
      (err <> None -> fetched = Client.emptyFetched)).
Proof.
  unfold Url.FetchUrl. split.
  - intros e c Hparse. unfold mbind, Eff_bind. rewrite Hparse. cbn.
    now rewrite app_nil_r.
  - intros fetched err c. rewrite out_bind.
    destruct (out (Url.ParseUrl cfg cache url)) as [[[u|e] c1]|]; [| |intros [=]].
    + rewrite out_bind.
      destruct (out (Client.FetchContractReturn cfg u)) as [[bs [e|]]|];
        [| |intros [=]].
      * intros [= <- <- <-]. now repeat split.
      * destruct (Client.ProcessContractReturn u bs) as [[f oe]|] eqn:Hp;
          [|intros [=]].
        intros [= <- <- <-]. now apply ProcessContractReturn_record in Hp.
    + intros [= <- <- <-]. now repeat split.
Qed.

End ParseUrlPaths.

(** ** The URL functions on the test doubles *)

(** A contract that declares the mode [resource-request], fetched by its
    address. *)
Example FetchUrl_of_resource_request_contract :
  out (Url.FetchUrl
         (hasher := Mock.hasher) (common := Mock.common)
         (caller := MockUrl.probing erc5219_return [x2a])
         (helpers := Mock.helpers Z (MockUrl.probing erc5219_return [x2a]))
         (env := MockUrl.env (MockUrl.probing erc5219_return [x2a]))
         Mock.clientConfig None
         "web3://0x0000000000000000000000000000000000000001/")
  = Returns (Client.emptyFetched,
             Some (errors_New "Missing ContractReturnProcessing field"), None).
Proof. reflexivity. Qed.

(** A name of the w3ns service with an empty cache: the name is resolved
    through [webHandler], the record names the service, and the cache holds
    the name afterwards. *)
Example ParseUrl_of_name :
  let run :=
    Url.ParseUrl
      (common := Mock.common) (caller := MockUrl.answering MockUrl.address4)
      (helpers := Mock.helpers Z (MockUrl.answering MockUrl.address4))
      (env := MockUrl.env (MockUrl.answering MockUrl.address4))
      Mock.clientConfig (Some ∅) "web3://example.w3q/count" in
  exists u,
    out run = Returns (Ok u, Some (<["1:example.w3q" :=
                                      (repeat zero_byte 19 ++ [x04], 0%Z)]> ∅))
    /\ Client.ContractAddress u = repeat zero_byte 19 ++ [x04]
    /\ Client.HostDomainNameResolver u = "w3ns"
    /\ Client.HostDomainNameResolverChainId u = 1%Z
    /\ Client.ChainId u = 1%Z
    /\ Client.MethodName u = "/count".
Proof. eexists. repeat split. Qed.

(** The same URL with the name in the cache: nothing but the probe of the
    resolve mode reaches the transport. *)
Example ParseUrl_of_cached_name :
  calls (Url.ParseUrl
           (common := Mock.common) (caller := MockUrl.answering MockUrl.address4)
           (helpers := Mock.helpers Z (MockUrl.answering MockUrl.address4))
           (env := MockUrl.env (MockUrl.answering MockUrl.address4))
           Mock.clientConfig
           (Some (<["1:example.w3q" := (repeat zero_byte 19 ++ [x04], 0%Z)]> ∅))
           "web3://example.w3q/count")
  = [EvCall "https://rpc.example"
       (mkCallMsg zero_address (Some (repeat zero_byte 19 ++ [x04])) 0 None None None
                  (bytes_of_string "resolveMode") None)].
Proof. reflexivity. Qed.

(** * Runs of the further properties on the test doubles *)

Lemma name_resolution_wellFormed_witness :
  wellFormedResolution (common := Mock.common) Mock.ensConfig
    (repeat zero_byte 19 ++ [x04], "", None).
Proof.
  apply (name_resolution_wellFormed
           (normalizer := Mock.normalizer) (hasher := Mock.hasher)
           (common := Mock.common) (caller := MockUrl.answering MockUrl.address4)
           (helpers := Mock.helpers string (MockUrl.answering MockUrl.address4))
           Mock.ensConfig "1" "example.w3q").
  right. reflexivity.
Defined.

Lemma name_resolution_trace_witness :
  dialledOnce "https://rpc.example" true
    (trace (Ens.getAddressFromNameService
              (normalizer := Mock.normalizer) (hasher := Mock.hasher)
              (common := Mock.common) (caller := MockUrl.answering MockUrl.address4)
              (helpers := Mock.helpers string (MockUrl.answering MockUrl.address4))
              Mock.ensConfig "1" "example.w3q"))
  /\ dials
       (trace (Ens.getAddressFromNameServiceWebHandler
                 (normalizer := Mock.normalizer) (hasher := Mock.hasher)
                 (common := Mock.common) (caller := MockUrl.answering MockUrl.address4)
                 (helpers := Mock.helpers string (MockUrl.answering MockUrl.address4))
                 Mock.ensConfig "1" "example.w3q"))
     = 1%nat.
Proof.
  pose proof (name_resolution_trace
                (normalizer := Mock.normalizer) (hasher := Mock.hasher)
                (common := Mock.common) (caller := MockUrl.answering MockUrl.address4)
                (helpers := Mock.helpers string (MockUrl.answering MockUrl.address4))
                ltac:(intros rpc msg; repeat constructor)
                Mock.ensConfig "1" "example.w3q") as (_ & _ & Hdial).
  destruct (Hdial _ _ eq_refl eq_refl) as (Hplain & _ & _ & Hweb).
  split; [exact Hplain | exact Hweb].
Defined.

Lemma simple_service_variants_agree_witness :
  Ens.getAddressFromNameServiceWebHandler
    (normalizer := Mock.normalizer) (hasher := Mock.hasher)
    (common := Mock.common) (caller := MockUrl.answering MockUrl.address4)
    (helpers := Mock.helpers string (MockUrl.answering MockUrl.address4))
    Mock.ensConfig "1" "foo.sim"
  = Ens.getAddressFromNameService
      (normalizer := Mock.normalizer) (hasher := Mock.hasher)
      (common := Mock.common) (caller := MockUrl.answering MockUrl.address4)
      (helpers := Mock.helpers string (MockUrl.answering MockUrl.address4))
      Mock.ensConfig "1" "foo.sim".
Proof.
  apply (simple_service_variants_agree
           (normalizer := Mock.normalizer) (hasher := Mock.hasher)
           (common := Mock.common) (caller := MockUrl.answering MockUrl.address4)
           (helpers := Mock.helpers string (MockUrl.answering MockUrl.address4))
           Mock.ensConfig "1" "foo.sim" "https://rpc.example"
           (mkNameServiceInfo SimpleNameService
              "0x00000000000000000000000000000000000000cc"));
    reflexivity.
Defined.

Lemma simple_service_short_name_panics_witness :
  Ens.getAddressFromNameService
    (normalizer := Mock.normalizer) (hasher := Mock.hasher)
    (common := Mock.common) (caller := MockUrl.answering MockUrl.address4)
    (helpers := Mock.helpers string (MockUrl.answering MockUrl.address4))
    MockUrl.tinyConfig "1" "a.s"
  = mkEff [EvDial "https://rpc.example"; EvClose "https://rpc.example"]
          (Panics "slice bounds out of range").
Proof.
  apply (simple_service_short_name_panics
           (normalizer := Mock.normalizer) (hasher := Mock.hasher)
           (common := Mock.common) (caller := MockUrl.answering MockUrl.address4)
           (helpers := Mock.helpers string (MockUrl.answering MockUrl.address4))
           MockUrl.tinyConfig "1" "a.s" "https://rpc.example"
           (mkNameServiceInfo SimpleNameService
              "0x00000000000000000000000000000000000000cc"));
    try reflexivity.
  cbn. lia.
Defined.

Lemma simple_service_label_witness :
  out (Ens.getAddressFromNameService
         (normalizer := Mock.normalizer) (hasher := Mock.hasher)
         (common := Mock.common) (caller := MockUrl.answering MockUrl.address4)
         (helpers := Mock.helpers string (MockUrl.answering MockUrl.address4))
         Mock.ensConfig "1" "foo.sim")
  = out (Ens.resolve
           (common := Mock.common) (caller := MockUrl.answering MockUrl.address4)
           (helpers := Mock.helpers string (MockUrl.answering MockUrl.address4))
           Mock.ensConfig "https://rpc.example" "1"
           (HexToAddress (Common := Mock.common)
                         "0x00000000000000000000000000000000000000cc")
           ["pointers";
            "bytes32!0x666f6f0000000000000000000000000000000000000000000000000000000000"]).
Proof.
  apply (simple_service_label
           (normalizer := Mock.normalizer) (hasher := Mock.hasher)
           (common := Mock.common) (caller := MockUrl.answering MockUrl.address4)
           (helpers := Mock.helpers string (MockUrl.answering MockUrl.address4))
           Mock.ensConfig "1" "foo" ".sim" "https://rpc.example"
           (mkNameServiceInfo SimpleNameService
              "0x00000000000000000000000000000000000000cc"));
    try reflexivity.
  cbn. lia.
Defined.

Lemma zero_resolver_is_400_witness :
  out (Ens.getAddressFromNameServiceWebHandler
         (normalizer := Mock.normalizer) (hasher := Mock.hasher)
         (common := Mock.common) (caller := MockUrl.answering zero_hash)
         (helpers := Mock.helpers string (MockUrl.answering zero_hash))
         Mock.ensConfig "1" "example.eth")
  = Returns (zero_address, "",
             Some (ErrWeb3 (mkWeb3Error 400 "Cannot get resolver for example.eth"))).
Proof.
  pose proof (zero_resolver_is_400
                (normalizer := Mock.normalizer) (hasher := Mock.hasher)
                (common := Mock.common) (caller := MockUrl.answering zero_hash)
                (helpers := Mock.helpers string (MockUrl.answering zero_hash))
                Mock.ensConfig "1" "example.eth" "https://rpc.example"
                (mkNameServiceInfo EthereumNameService
                   "0x00000000000000000000000000000000000000aa") _
                eq_refl eq_refl ltac:(discriminate) eq_refl eq_refl eq_refl)
    as [_ Hweb].
  rewrite Hweb. reflexivity.
Defined.

Lemma webHandlerProbe_recovery_witness :
  out (Ens.webHandlerProbe
         (common := Mock.common) (caller := MockUrl.answering emptyStringReturn)
         (helpers := Mock.helpers string (MockUrl.answering emptyStringReturn))
         Mock.ensConfig "https://rpc.example" "1"
         (mkNameServiceInfo EthereumNameService
            "0x00000000000000000000000000000000000000aa") Mock.addr1 "0x00")
  = out (Ens.resolve
           (common := Mock.common) (caller := MockUrl.answering emptyStringReturn)
           (helpers := Mock.helpers string (MockUrl.answering emptyStringReturn))
           Mock.ensConfig "https://rpc.example" "1" Mock.addr1 (addrArgs "0x00")).
Proof.
  pose proof (webHandlerProbe_recovery
                (common := Mock.common) (caller := MockUrl.answering emptyStringReturn)
                (helpers := Mock.helpers string (MockUrl.answering emptyStringReturn))
                Mock.ensConfig "https://rpc.example" "1"
                (mkNameServiceInfo EthereumNameService
                   "0x00000000000000000000000000000000000000aa") Mock.addr1 "0x00"
                _ emptyStringReturn None eq_refl eq_refl) as [_ Hfall].
  rewrite (Hfall eq_refl (or_introl eq_refl)). reflexivity.
Defined.

Lemma NameHash_same_normal_form_witness :
  Ens.NameHash (normalizer := Mock.normalizer) (hasher := Mock.hasher) "Foo.eth"
  = Ens.NameHash (normalizer := Mock.normalizer) (hasher := Mock.hasher) "foo.ETH".
Proof.
  apply (NameHash_same_normal_form
           (normalizer := Mock.normalizer) (hasher := Mock.hasher)
           "Foo.eth" "foo.ETH" "foo.eth");
    [discriminate | discriminate | reflexivity | reflexivity].
Defined.

Lemma NameHash_single_label_witness :
  Ens.NameHash (normalizer := Mock.normalizer) (hasher := Mock.hasher) "Eth"
  = (Keccak256 (Hasher := Mock.hasher)
       (zero_hash
        ++ fst (Ens.LabelHash (normalizer := Mock.normalizer) (hasher := Mock.hasher)
                              "Eth")), None).
Proof.
  apply (NameHash_single_label
           (normalizer := Mock.normalizer) (hasher := Mock.hasher) "Eth" "eth");
    [discriminate | reflexivity | reflexivity].
Defined.

Lemma getConfigs_by_suffix_witness :
  Ens.getConfigs Mock.ensConfig "1" "example.eth"
  = (mkNameServiceInfo EthereumNameService
       "0x00000000000000000000000000000000000000aa", "https://rpc.example", None)
  /\ snd (Ens.getConfigs Mock.ensConfig "1" "example")
     = Some (ErrWeb3 (mkWeb3Error 400 "invalid domain name: example")).
Proof.
  destruct (getConfigs_by_suffix Mock.ensConfig "1") as [Hnodot Hsuffix]. split.
  - exact (Hsuffix "example" "eth" eq_refl).
  - apply (Hnodot "example"). reflexivity.
Defined.

Lemma FetchContractReturn_success_witness :
  [x2a] <> @nil byte
  /\ exists msg,
      trace (Client.FetchContractReturn
               (hasher := Mock.hasher) (common := Mock.common)
               (caller := MockUrl.answering [x2a])
               Mock.clientConfig Mock.calldataUrl)
      = [EvDial "https://rpc.example"; EvCall "https://rpc.example" msg;
         EvClose "https://rpc.example"]
      /\ To msg = Some Mock.addr1
      /\ CallContract (EthCaller := MockUrl.answering [x2a]) "https://rpc.example" msg
         = ([x2a], None).
Proof.
  pose proof (FetchContractReturn_success
                (hasher := Mock.hasher) (common := Mock.common)
                (caller := MockUrl.answering [x2a])
                Mock.clientConfig Mock.calldataUrl) as [_ Hok].
  exact (Hok [x2a] eq_refl).
Defined.

Lemma FetchContractReturn_errors_witness :
  trace (Client.FetchContractReturn
           (hasher := Mock.hasher) (common := Mock.common)
           (caller := MockUrl.unreachable)
           Mock.clientConfig Mock.calldataUrl)
  = [EvDial "https://rpc.example"].
Proof.
  destruct (FetchContractReturn_errors
              (hasher := Mock.hasher) (common := Mock.common)
              (caller := MockUrl.unreachable)
              Mock.clientConfig Mock.calldataUrl []
              (ErrWeb3 (mkWeb3Error 400 "dial tcp: connection refused")) eq_refl)
    as [(_ & _ & Hmode & _)|[(Htrace & _)|(msg & m & _ & _ & He & _)]].
  - discriminate Hmode.
  - exact Htrace.
  - discriminate He.
Defined.

Lemma calldata_is_passed_through_witness :
  calls (Client.FetchContractReturn
           (hasher := Mock.hasher) (common := Mock.common)
           (caller := MockUrl.answering [x2a])
           Mock.clientConfig Mock.calldataUrl)
  = [EvCall "https://rpc.example"
       (Client.callMessageFor (common := Mock.common) Mock.calldataUrl [xde; xad])].
Proof.
  pose proof (calldata_is_passed_through
                (hasher := Mock.hasher) (common := Mock.common)
                (caller := MockUrl.answering [x2a])
                Mock.clientConfig Mock.calldataUrl eq_refl) as [_ Hsent].
  exact (Hsent eq_refl).
Defined.

Lemma ProcessContractReturn_leaves_unset_witness :
  exists fetched,
    Client.ProcessContractReturn
      (helpers := Mock.helpers Z (MockUrl.answering [x2a]))
      (MockUrl.withCall Mock.calldataUrl Client.ContractCallModeCalldata [] "") [x2a]
    = Returns (fetched, None)
    /\ Client.ParsedUrl fetched = None
    /\ Client.ContractReturn fetched = []
    /\ Client.HttpHeaders fetched !! "Content-Length" = None.
Proof.
  eexists. split; [reflexivity|].
  destruct (ProcessContractReturn_leaves_unset
              (helpers := Mock.helpers Z (MockUrl.answering [x2a]))
              (MockUrl.withCall Mock.calldataUrl Client.ContractCallModeCalldata [] "")
              [x2a] _ _ eq_refl) as (Hp & Hc & Hh).
  split; [exact Hp|]. split; [exact Hc|]. apply Hh. discriminate.
Defined.

Lemma ProcessContractReturn_status_witness :
  exists fetched,
    Client.ProcessContractReturn
      (helpers := Mock.helpers Z (MockUrl.answering [x2a]))
      (Mock.urlWith Client.ContractCallModeMethod "dataUrl") [x2a]
    = Returns (fetched, None)
    /\ fetched = Client.emptyFetched.
Proof.
  eexists. split; [reflexivity|].
  destruct (ProcessContractReturn_status
              (helpers := Mock.helpers Z (MockUrl.answering [x2a]))
              (Mock.urlWith Client.ContractCallModeMethod "dataUrl")
              [x2a] _ _ eq_refl) as [(_ & Hcode & _)|(_ & _ & Hempty)].
  - discriminate Hcode.
  - exact Hempty.
Defined.

Lemma ProcessContractReturn_content_type_witness :
  exists fetched,
    Client.ProcessContractReturn
      (helpers := Mock.helpers Z (MockUrl.answering [x2a]))
      (MockUrl.withCall Mock.calldataUrl Client.ContractCallModeCalldata [] "") [x2a]
    = Returns (fetched, None)
    /\ Client.HttpHeaders fetched !! "Content-Type" = Some "application/json".
Proof.
  eexists. split; [reflexivity|].
  destruct (ProcessContractReturn_content_type
              (helpers := Mock.helpers Z (MockUrl.answering [x2a]))
              (MockUrl.withCall Mock.calldataUrl Client.ContractCallModeCalldata [] "")
              [x2a] _ eq_refl) as [_ Hjson].
  apply Hjson. left. reflexivity.
Defined.

Lemma parseOutput_errors_are_400_witness :
  exists msg,
    ErrWeb3 (mkWeb3Error 400 "abi: output too short") = ErrWeb3 (mkWeb3Error 400 msg).
Proof.
  apply (parseOutput_errors_are_400
           (helpers := Mock.helpers string (MockUrl.answering [x2a]))
           [x01] "(address)").
  reflexivity.
Defined.

Lemma parseOutput_values_witness :
  (forall res,
      parseOutput (helpers := Mock.helpers string (MockUrl.answering [x2a]))
                  MockUrl.address4 "(address)" = Returns (Ok res) ->
      length res = 1%nat)
  /\ parseOutput (helpers := Mock.helpers string (MockUrl.answering [x2a]))
                 [x01; x02] "()"
     = Returns (Ok [Mock.VStr "0x0102"]).
Proof.
  destruct (parseOutput_values
              (helpers := Mock.helpers string (MockUrl.answering [x2a]))
              MockUrl.address4 "(address)") as [_ Hvalues].
  destruct (parseOutput_values
              (helpers := Mock.helpers string (MockUrl.answering [x2a]))
              [x01; x02] "()") as [Hraw _].
  split; [|exact (Hraw eq_refl)].
  destruct (Hvalues ["address"] [Mock.VBytes MockUrl.address4])
    as (_ & Hlen); [discriminate | reflexivity | reflexivity | exact Hlen].
Defined.

Lemma checkResolveMode_runs_witness :
  Client.checkResolveMode
    (caller := MockUrl.unreachable)
    (helpers := Mock.helpers Z MockUrl.unreachable)
    Mock.clientConfig Mock.methodUrl
  = mkEff [EvDial "https://rpc.example"] (Panics nil_dereference).
Proof.
  pose proof (checkResolveMode_runs
                (caller := MockUrl.unreachable)
                (helpers := Mock.helpers Z MockUrl.unreachable)
                Mock.clientConfig Mock.methodUrl) as (_ & Hdial & _).
  exact (Hdial "dial tcp: connection refused" eq_refl eq_refl).
Defined.

Lemma matchWeb3Url_round_trip_witness :
  "web3://vitalik.eth:5/balanceOf?x=1"
  = "web3" +:+ "://" +:+ "vitalik.eth" +:+ (":" +:+ "5") +:+ "/balanceOf?x=1".
Proof.
  exact (proj1 (matchWeb3Url_round_trip
                  "web3://vitalik.eth:5/balanceOf?x=1"
                  (Url.mkUrlMainParts "web3" "vitalik.eth" "5" "/balanceOf?x=1"
                                      "/balanceOf" "x=1")
                  eq_refl)).
Defined.

Lemma ParseUrl_only_web3_witness :
  exists msg,
    Url.ParseUrl (common := Mock.common) (caller := MockUrl.answering [x2a])
                 (helpers := Mock.helpers Z (MockUrl.answering [x2a]))
                 (env := MockUrl.env (MockUrl.answering [x2a]))
                 Mock.clientConfig None "https://example.eth/"
    = mkEff [] (Returns (Err (ErrWeb3 (mkWeb3Error 400 msg)), None)).
Proof.
  apply (ParseUrl_only_web3
           (common := Mock.common) (caller := MockUrl.answering [x2a])
           (helpers := Mock.helpers Z (MockUrl.answering [x2a]))
           (env := MockUrl.env (MockUrl.answering [x2a]))
           Mock.clientConfig None "https://example.eth/").
  reflexivity.
Defined.

Lemma ParseUrl_chain_witness :
  Url.ParseUrl (common := Mock.common) (caller := MockUrl.answering [x2a])
               (helpers := Mock.helpers Z (MockUrl.answering [x2a]))
               (env := MockUrl.env (MockUrl.answering [x2a]))
               Mock.clientConfig None "web3://example.eth:99999999999999999999/"
  = mkEff [] (Returns (Err (ErrWeb3 (mkWeb3Error 400
                              "Unsupported chain 99999999999999999999")), None)).
Proof.
  pose proof (ParseUrl_chain
                (common := Mock.common) (caller := MockUrl.answering [x2a])
                (helpers := Mock.helpers Z (MockUrl.answering [x2a]))
                (env := MockUrl.env (MockUrl.answering [x2a]))
                Mock.clientConfig None "web3://example.eth:99999999999999999999/"
                (Url.mkUrlMainParts "web3" "example.eth" "99999999999999999999"
                                    "/" "/" "")
                eq_refl eq_refl) as (_ & Hrange & _).
  apply Hrange; [discriminate | reflexivity].
Defined.

Lemma lookupName_cache_witness :
  Url.lookupName (env := MockUrl.env MockUrl.unreachable)
                 (Some MockUrl.warmCache) 1 "example.eth"
  = mkEff [] (Returns (Ok (Mock.addr1, 100%Z), Some MockUrl.warmCache)).
Proof.
  pose proof (lookupName_cache
                (env := MockUrl.env MockUrl.unreachable)
                (Some MockUrl.warmCache) 1 "example.eth") as [Hhit _].
  exact (Hhit MockUrl.warmCache Mock.addr1 100%Z eq_refl eq_refl).
Defined.

Lemma resolveHost_target_chain_witness :
  Url.resolveHost (common := Mock.common) (env := MockUrl.env MockUrl.unreachable)
                  Mock.clientConfig (Some MockUrl.warmCache) 1 "example.eth"
  = mkEff [] (Returns (Err (ErrWeb3 (mkWeb3Error 400 "unsupported chain id: 100")),
                       Some MockUrl.warmCache)).
Proof.
  apply (resolveHost_target_chain
           (common := Mock.common) (env := MockUrl.env MockUrl.unreachable)
           Mock.clientConfig (Some MockUrl.warmCache) (Some MockUrl.warmCache)
           1 100 "example.eth"
           (mkNameServiceInfo EthereumNameService
              "0x00000000000000000000000000000000000000aa") Mock.addr1);
    try reflexivity.
  cbn. lia.
Defined.

Lemma FetchUrl_resource_request_witness :
  out (Url.ParseUrl
         (common := Mock.common)
         (caller := MockUrl.probing erc5219_return [x2a])
         (helpers := Mock.helpers Z (MockUrl.probing erc5219_return [x2a]))
         (env := MockUrl.env (MockUrl.probing erc5219_return [x2a]))
         Mock.clientConfig None
         "web3://0x0000000000000000000000000000000000000001/")
  = Returns (Ok (Url.resolvedUrl
                   "web3://0x0000000000000000000000000000000000000001/" "" 0
                   Mock.addr1 1 Client.ResolveModeResourceRequests), None)
  /\ exists e,
      out (Url.FetchUrl
             (hasher := Mock.hasher) (common := Mock.common)
             (caller := MockUrl.probing erc5219_return [x2a])
             (helpers := Mock.helpers Z (MockUrl.probing erc5219_return [x2a]))
             (env := MockUrl.env (MockUrl.probing erc5219_return [x2a]))
             Mock.clientConfig None
             "web3://0x0000000000000000000000000000000000000001/")
      = Returns (Client.emptyFetched, Some e, None).
Proof.
  destruct (FetchUrl_resource_request
              (hasher := Mock.hasher) (common := Mock.common)
              (caller := MockUrl.probing erc5219_return [x2a])
              (helpers := Mock.helpers Z (MockUrl.probing erc5219_return [x2a]))
              (env := MockUrl.env (MockUrl.probing erc5219_return [x2a]))
              Mock.clientConfig None None
              "web3://0x0000000000000000000000000000000000000001/" ""
              (Url.mkUrlMainParts "web3" "0x0000000000000000000000000000000000000001"
                                  "" "/" "/" "")
              1 0 1 Mock.addr1 eq_refl eq_refl eq_refl eq_refl eq_refl)
    as (Hparse & _ & e & Hout & _).
  split; [exact Hparse | exists e; exact Hout].
Defined.

Lemma FetchUrl_results_witness :
  Url.FetchUrl
    (hasher := Mock.hasher) (common := Mock.common)
    (caller := MockUrl.answering [x2a])
    (helpers := Mock.helpers Z (MockUrl.answering [x2a]))
    (env := MockUrl.env (MockUrl.answering [x2a]))
    Mock.clientConfig None "web3://example/"
  = mkEff [] (Returns (Client.emptyFetched,
                       Some (ErrWeb3 (mkWeb3Error 400 "Invalid contract address")),
                       None)).
Proof.
  pose proof (FetchUrl_results
                (hasher := Mock.hasher) (common := Mock.common)
                (caller := MockUrl.answering [x2a])
                (helpers := Mock.helpers Z (MockUrl.answering [x2a]))
                (env := MockUrl.env (MockUrl.answering [x2a]))
                Mock.clientConfig None "web3://example/") as [Hfail _].
  exact (Hfail (ErrWeb3 (mkWeb3Error 400 "Invalid contract address")) None eq_refl).
Defined.
